(** * BrainstormGPT: a shallow embedding of [main.py]

    The script drives two chat agents over one shared message list, stops
    on a token budget or on a short reply, then asks for a synthesis and a
    report and writes three files.  The embedding follows the script line
    by line: Python [str] values are lists of code points, the OpenAI
    endpoint is a function from the call number and the request to a
    response, [enc.encode] of tiktoken is a function from text to tokens,
    and the side effects (requests sent, console output, files) live in a
    state that survives a raised exception. *)

From Stdlib Require Import ZArith NArith List Ascii String DecimalString Floats Lia.
From stdpp Require Import base decidable list strings gmap fin_maps.

#[local] Set Warnings "-inexact-float".

Local Open Scope Z_scope.
Local Open Scope list_scope.

(** ** Python text *)

(** A Python [str] is a sequence of Unicode code points; [len] counts
    code points. *)
Abbreviation text := (list N).

(** A source literal without escapes. *)
Definition lit (s : string) : text :=
  List.map N_of_ascii (String.list_ascii_of_string s).

(** The escape [\n]. *)
Definition nl : text := [10%N].

(** [str.isspace] on one code point: the Unicode white space that
    [str.strip()] removes. *)
Definition py_isspace (c : N) : bool :=
  ((9 <=? c) && (c <=? 13) || (28 <=? c) && (c <=? 32) || (c =? 133)
   || (c =? 160) || (c =? 5760) || (8192 <=? c) && (c <=? 8202)
   || (c =? 8232) || (c =? 8233) || (c =? 8239) || (c =? 8287)
   || (c =? 12288))%N.

Fixpoint lstrip (s : text) : text :=
  match s with
  | c :: s' => if py_isspace c then lstrip s' else s
  | [] => []
  end.

Definition rstrip (s : text) : text := rev (lstrip (rev s)).

(** [s.strip()] *)
Definition strip (s : text) : text := rstrip (lstrip s).

(** [sep.join(parts)] *)
Fixpoint join (sep : text) (parts : list text) : text :=
  match parts with
  | [] => []
  | [p] => p
  | p :: rest => p ++ sep ++ join sep rest
  end.

(** [str(n)] for a non-negative integer, as an f-string renders it. *)
Definition str_of_nat (n : nat) : text :=
  lit (NilEmpty.string_of_uint (Nat.to_uint n)).

(** [len(s)] as a Python integer. *)
Definition len {A} (l : list A) : Z := Z.of_nat (length l).

(** ** The remote service *)

(** One entry of the [messages] list of a chat request: the dict
    [{"role": ..., "content": ...}]. *)
Record Message := mkMessage { role : text; content : text }.

(** The keyword arguments of [openai.ChatCompletion.create]. *)
Record Request := mkRequest {
  req_model : text;
  req_messages : list Message;
  req_max_tokens : Z;
  req_temperature : float;
  req_top_p : float
}.

(** What the endpoint answers: an error raised by the client library, or
    a completion whose [choices] list has a first element; only
    [choices[0].message.content] is read by the script. *)
Inductive Response :=
| ServiceError (reason : text)
| Choices (first : text) (others : list text).

(** Python exceptions the script can raise. *)
Inductive Exn :=
| OpenAIError (reason : text)
| NameError (name : string).

(** ** Effects *)

(** The observable state: requests sent so far (oldest first), what was
    written to the console, and the files on disk. *)
Record World := mkWorld {
  requests : list Request;
  stdout : list text;
  files : gmap string text
}.

Definition init_world : World := mkWorld [] [] ∅.

(** Outcome of a computation: a value, a raised exception, or the loop
    bound of the model was reached before the script finished. *)
Inductive Res (A : Type) :=
| Ok (a : A)
| Raise (e : Exn)
| OutOfFuel.
Arguments Ok {A} a.
Arguments Raise {A} e.
Arguments OutOfFuel {A}.

(** State that persists across exceptions. *)
Definition M (A : Type) : Type := World -> World * Res A.

Definition ret {A} (a : A) : M A := fun w => (w, Ok a).

Definition raise {A} (e : Exn) : M A := fun w => (w, Raise e).

Definition bind {A B} (m : M A) (k : A -> M B) : M B :=
  fun w =>
    match m w with
    | (w', Ok a) => k a w'
    | (w', Raise e) => (w', Raise e)
    | (w', OutOfFuel) => (w', OutOfFuel)
    end.

Notation "x <- m ;; k" := (bind m (fun x => k))
  (at level 100, m at next level, right associativity).
Notation "m ;;; k" := (bind m (fun _ => k))
  (at level 100, right associativity).

(** [print(s)]: the text and the line end go to the console.  The console
    is taken to accept every text: the [UnicodeEncodeError] of a console
    that cannot encode it is outside the model. *)
Definition print (s : text) : M unit :=
  fun w => (mkWorld (requests w) (stdout w ++ [s ++ nl]) (files w), Ok tt).

(** [input(prompt)]: the prompt goes to the console, the line typed by
    the user is returned. *)
Definition input (prompt typed : text) : M text :=
  fun w => (mkWorld (requests w) (stdout w ++ [prompt]) (files w), Ok typed).

(** [open(name, "w")]: the file is created or truncated. *)
Definition open_w (name : string) : M unit :=
  fun w => (mkWorld (requests w) (stdout w) (<[name := []]> (files w)), Ok tt).

(** [f.write(s)] on a file opened by [open_w].  The file is taken to
    accept every text: the [UnicodeEncodeError] of a file encoding that
    cannot encode it is outside the model. *)
Definition write (name : string) (s : text) : M unit :=
  fun w =>
    (mkWorld (requests w) (stdout w)
       (<[name := default [] (files w !! name) ++ s]> (files w)), Ok tt).

Section Client.

(** The endpoint: the answer to the [n]-th request of the run. *)
Variable service : nat -> Request -> Response.

(** [openai.ChatCompletion.create(...)['choices'][0]['message']['content']] *)
Definition create (r : Request) : M text :=
  fun w =>
    let w' := mkWorld (requests w ++ [r]) (stdout w) (files w) in
    match service (length (requests w)) r with
    | ServiceError e => (w', Raise (OpenAIError e))
    | Choices c _ => (w', Ok c)
    end.

(** [query_GPT(prompt, max_tokens, engine, temp, top_p)] *)
Definition query_GPT (prompt : text) (max_tokens : Z) (engine : text)
    (temp top_p : float) : M text :=
  create (mkRequest engine [mkMessage (lit "user") prompt]
            max_tokens temp top_p).

(** The [for i, message in enumerate(input_messages)] loop of
    [chat_GPT], started at index [i] with [messages] built so far. *)
Fixpoint chat_loop (starter : text) (i : nat) (input_messages : list text)
    (messages : list Message) : list Message :=
  match input_messages with
  | [] => messages
  | message :: rest =>
      let parity := if decide (starter = lit "user") then 0 else 1 in
      let messages' :=
        if decide (Z.of_nat i mod 2 = parity)
        then messages ++ [mkMessage (lit "user") message]
        else messages ++ [mkMessage (lit "assistant") message] in
      chat_loop starter (S i) rest messages'
  end.

(** The request [chat_GPT] builds. *)
Definition chat_request (input_messages : list text) (system_prompt : text)
    (starter : text) (max_tokens : Z) (engine : text)
    (temp top_p : float) : Request :=
  let messages := [mkMessage (lit "system") system_prompt] in
  mkRequest engine (chat_loop starter 0 input_messages messages)
    max_tokens temp top_p.

(** [chat_GPT(input_messages, system_prompt, starter, max_tokens, engine,
    temp, top_p)] *)
Definition chat_GPT (input_messages : list text) (system_prompt : text)
    (starter : text) (max_tokens : Z) (engine : text)
    (temp top_p : float) : M text :=
  create (chat_request input_messages system_prompt starter max_tokens
            engine temp top_p).

End Client.

(** Default of the [max_tokens] parameter of [query_GPT] and [chat_GPT]. *)
Definition default_max_tokens : Z := 512.

(** [compute_total_tokens(messages, enc)] *)
Definition compute_total_tokens (messages : list text)
    (enc : text -> list Z) : Z :=
  let message_string := join nl messages in
  len (enc message_string).

(** ** The script *)

(** [brainstorming_prompt.format(problem=..., additional=...)]: the
    template after its [.strip()], with the two fields filled in. *)
Definition brainstorming_prompt (problem additional : text) : text :=
  lit "You are a superhuman AI problem solver working with another superhuman AI agent to solve the following problem:"
  ++ nl ++ nl
  ++ lit "Problem: " ++ problem ++ additional ++ nl ++ nl
  ++ lit "Your task is to critically analyze and critique the solution put forth by your partner agent. You should identify the flaws in your partner's plan and suggest rigorous improvements to their ideas."
  ++ nl ++ nl
  ++ lit "Engage in a productive conversation and brainstorm a solution together. Do not agree with everything your partner says; challenge your partner's ideas aggressively and rigorously critique the proposed ideas. Build on your partner's ideas if they are sound and propose new ideas."
  ++ nl ++ nl
  ++ lit "Do not reiterate what your partner has said already. Only propose new ideas and critique your partner."
  ++ nl ++ nl
  ++ lit "Your ultimate goal is to work together to develop a completely sound and full-proof proposal to solve the problem.".

(** [synthesis_prompt.format(problem=..., additional=..., conversation=...)] *)
Definition synthesis_prompt (problem additional conversation : text) : text :=
  lit "Problem: " ++ problem ++ additional ++ nl ++ nl
  ++ lit "The following is a conversation between two superhuman AI agents trying to solve the above problem:"
  ++ nl ++ nl
  ++ lit "### CONVERSATION START ###" ++ nl
  ++ conversation ++ nl
  ++ lit "### CONVERSATION END ###" ++ nl ++ nl
  ++ lit "Synthesize the above conversation into an extremely detailed, coherent, complete proposal to solve the problem.".

(** The conditional expression passed as [additional=] to both templates. *)
Definition additional_field (additional : text) : text :=
  if decide (additional <> []) then
    nl ++ lit "Additional Information: " ++ additional
  else [].

Definition rule : text := lit "-----------------------------".

(** The command line after [parser.parse_args()]. *)
Record Args := mkArgs {
  temp : float;
  top_p : float;
  engine : text;
  max_len : Z
}.

(** The defaults declared with [add_argument]. *)
Definition default_args : Args :=
  mkArgs 0.8%float 0.95%float (lit "gpt-3.5-turbo") 2048.

(** The three lines typed at the prompts. *)
Record Inputs := mkInputs {
  typed_problem : text;
  typed_additional : text;
  typed_seed : text
}.

(** Lines 103-106: [context_len] is bound only for the two engines named
    there; [None] is the unbound name. *)
Definition context_len_of (engine : text) : option Z :=
  if decide (engine = lit "gpt-3.5-turbo") then Some 4000
  else if decide (engine = lit "gpt-4") then Some 8000
  else None.

(** Reading the variable [context_len]. *)
Definition read_context_len (context_len : option Z) : M Z :=
  match context_len with
  | Some c => ret c
  | None => raise (NameError "context_len")
  end.

(** The label [Agent {i % 2 + 1}: {message}\n\n] of lines 148 and 164. *)
Definition agent_entry (i : nat) (message : text) : text :=
  lit "Agent " ++ str_of_nat (Z.to_nat (Z.of_nat i mod 2 + 1)) ++ lit ": "
  ++ message ++ nl ++ nl.

(** Lines 147-148: [conversation_string += ...] over
    [enumerate(messages)], from index [i]. *)
Fixpoint flatten_loop (i : nat) (messages : list text)
    (conversation_string : text) : text :=
  match messages with
  | [] => conversation_string
  | message :: rest =>
      flatten_loop (S i) rest (conversation_string ++ agent_entry i message)
  end.

(** Lines 146-149. *)
Definition conversation_string_of (messages : list text) : text :=
  strip (flatten_loop 0 messages []).

(** Lines 163-164: one [f.write] per message, from index [i]. *)
Fixpoint export_loop (name : string) (i : nat) (messages : list text)
    : M unit :=
  match messages with
  | [] => ret tt
  | message :: rest =>
      write name (agent_entry i message) ;;; export_loop name (S i) rest
  end.

(** The header written first to [conversation.txt] and [synthesis.txt]. *)
Definition file_header (problem additional seed : text) : text :=
  lit "Problem: " ++ problem ++ nl ++ nl
  ++ lit "Additional Information: " ++ additional ++ nl ++ nl
  ++ lit "Proposed Solution: " ++ seed ++ nl ++ nl.

Section Script.

Variable service : nat -> Request -> Response.

(** [enc.encode] of the [cl100k_base] encoding: the tokenizer is a
    library of its own, so a function from text to tokens stands for it,
    and what a statement needs of the tokenizer is a hypothesis on that
    function.  The encoder is taken to return a token list for every
    text: the [ValueError] it raises on the text of a special token is
    outside the model. *)
Variable enc : text -> list Z.

Variable args : Args.

(** Lines 113-120: the seed typed by the user, or a generated one. *)
Definition seeding (problem additional seed : text) : M text :=
  if decide (seed = []) then
    print (rule ++ nl ++ lit "Generating initial proposal..." ++ nl ++ rule) ;;;
    let prompt :=
      if decide (additional = []) then
        lit "Given the following problem, propose a solution." ++ nl ++ nl
        ++ lit "Problem: " ++ problem ++ nl ++ nl
        ++ lit "Proposed solution:"
      else
        lit "Given the following problem and additional information, propose a solution."
        ++ nl ++ nl ++ lit "Problem: " ++ problem ++ nl ++ nl
        ++ lit "Additional Information: " ++ additional ++ nl ++ nl
        ++ lit "Proposed solution:" in
    r <- query_GPT service prompt default_max_tokens (engine args)
           (temp args) (top_p args) ;;
    let seed := strip r in
    print (nl ++ rule ++ nl ++ lit "Initial proposal: " ++ seed ++ nl
           ++ rule ++ nl) ;;;
    ret seed
  else ret seed.

(** Lines 130-140: one pass through the body of the [while] loop.  The
    result is the extended [messages] list and whether [break] was
    taken. *)
Definition iteration (active_prompt : text) (messages : list text)
    : M (list text * bool) :=
  let max_tokens := max_len args - compute_total_tokens messages enc in
  r1 <- chat_GPT service messages active_prompt (lit "user")
          max_tokens (engine args) (temp args) (top_p args) ;;
  let agent1_response := strip r1 in
  let messages := messages ++ [agent1_response] in
  print (lit "Agent 1: " ++ agent1_response ++ nl ++ rule ++ nl) ;;;
  r2 <- chat_GPT service messages active_prompt (lit "assistant")
          max_tokens (engine args) (temp args) (top_p args) ;;
  let agent2_response := strip r2 in
  let messages := messages ++ [agent2_response] in
  print (lit "Agent 2: " ++ agent2_response ++ nl ++ rule ++ nl) ;;;
  ret (messages, len agent2_response <? 50).

(** Lines 129-142: the [while] loop, at most [fuel] passes through its
    body.  The result is the final [messages] list. *)
Fixpoint debating (fuel : nat) (active_prompt : text)
    (messages : list text) : M (list text) :=
  if compute_total_tokens messages enc <? max_len args then
    match fuel with
    | O => fun w => (w, OutOfFuel)
    | S fuel' =>
        r <- iteration active_prompt messages ;;
        if snd r then ret (fst r)
        else debating fuel' active_prompt (fst r)
    end
  else ret messages.

(** Lines 144-176: synthesis, the two text files, the report. *)
Definition synthesis_stage (context_len : option Z)
    (problem additional seed : text) (messages : list text) : M unit :=
  print (rule ++ nl ++ lit "Synthesizing information..." ++ nl ++ rule) ;;;
  let conversation_string := conversation_string_of messages in
  let active_prompt :=
    synthesis_prompt problem (additional_field additional)
      conversation_string in
  c <- read_context_len context_len ;;
  r <- query_GPT service active_prompt (c - len (enc active_prompt))
         (engine args) (temp args) (top_p args) ;;
  let synthesis := strip r in
  print (nl ++ rule ++ nl ++ lit "Synthesis: " ++ synthesis ++ nl ++ rule
         ++ nl) ;;;
  open_w "conversation.txt" ;;;
  write "conversation.txt" (file_header problem additional seed) ;;;
  export_loop "conversation.txt" 0 messages ;;;
  open_w "synthesis.txt" ;;;
  write "synthesis.txt" (file_header problem additional seed) ;;;
  write "synthesis.txt" (lit "Synthesis: " ++ synthesis ++ nl ++ nl) ;;;
  c' <- read_context_len context_len ;;
  html <- query_GPT service
            (lit "###START REPORT" ++ nl ++ synthesis ++ nl
             ++ lit "###END REPORT" ++ nl ++ nl
             ++ lit "Reformat the above write-up via HTML into a professional-looking report. Use Times New Roman"
             ++ nl ++ lit "<!DOCTYPE html>")
            (c' - len (enc synthesis))
            (engine args) (temp args) (top_p args) ;;
  open_w "report.html" ;;;
  write "report.html" html.

(** Lines 122-176, from the seed on. *)
Definition brainstorm (fuel : nat) (context_len : option Z)
    (problem additional seed : text) : M unit :=
  print (lit "Starting brainstorming session..." ++ nl ++ rule) ;;;
  let messages := [seed] in
  let active_prompt :=
    brainstorming_prompt problem (additional_field additional) in
  messages <- debating fuel active_prompt messages ;;
  synthesis_stage context_len problem additional seed messages.

(** The body of [if __name__ == "__main__":] after argument parsing. *)
Definition main (fuel : nat) (typed : Inputs) : M unit :=
  let context_len := context_len_of (engine args) in
  print (lit "Welcome to BrainstormGPT " ++ [129504; 9928; 65039]%N ++ nl
         ++ rule) ;;;
  problem <- input (lit "Describe the problem you want to solve: ")
               (typed_problem typed) ;;
  additional <- input (lit "Describe any additional information you want to provide (leave blank if none): ")
                  (typed_additional typed) ;;
  seed <- input (lit "Enter any initial proposals you have (leave blank if none): ")
            (typed_seed typed) ;;
  seed <- seeding problem additional seed ;;
  brainstorm fuel context_len problem additional seed.

End Script.

(** ** Vocabulary for the statements *)

(** The role opposite to [r] in a two-party chat. *)
Definition other_role (r : text) : text :=
  if decide (r = lit "user") then lit "assistant" else lit "user".

(** The role the specification gives to position [i] of a history whose
    first element has role [starter]. *)
Definition role_at (starter : text) (i : nat) : text :=
  if Nat.even i then starter else other_role starter.

(** The world after one more request. *)
Definition sent (w : World) (r : Request) : World :=
  mkWorld (requests w ++ [r]) (stdout w) (files w).

(** The world after one more [print]. *)
Definition printed (w : World) (s : text) : World :=
  mkWorld (requests w) (stdout w ++ [s ++ nl]) (files w).

(** The two requests of one pass through the loop body, and the console
    lines it prints. *)
Definition agent1_request (args : Args) (enc : text -> list Z)
    (active_prompt : text) (messages : list text) : Request :=
  chat_request messages active_prompt (lit "user")
    (max_len args - compute_total_tokens messages enc)
    (engine args) (temp args) (top_p args).

Definition agent2_request (args : Args) (enc : text -> list Z)
    (active_prompt : text) (messages : list text) (agent1_response : text)
    : Request :=
  chat_request (messages ++ [agent1_response]) active_prompt (lit "assistant")
    (max_len args - compute_total_tokens messages enc)
    (engine args) (temp args) (top_p args).

Definition agent1_line (agent1_response : text) : text :=
  lit "Agent 1: " ++ agent1_response ++ nl ++ rule ++ nl.

Definition agent2_line (agent2_response : text) : text :=
  lit "Agent 2: " ++ agent2_response ++ nl ++ rule ++ nl.

(** The world after a pass in which both calls were answered. *)
Definition after_iteration (w : World) (req1 req2 : Request)
    (agent1_response agent2_response : text) : World :=
  printed (sent (printed (sent w req1) (agent1_line agent1_response)) req2)
    (agent2_line agent2_response).

(** The full text of [conversation.txt] for a given run. *)
Definition conversation_file (problem additional seed : text)
    (messages : list text) : text :=
  file_header problem additional seed ++ flatten_loop 0 messages [].

(** The full text of [synthesis.txt]. *)
Definition synthesis_file (problem additional seed synthesis : text) : text :=
  file_header problem additional seed
  ++ lit "Synthesis: " ++ synthesis ++ nl ++ nl.

(** The synthesis instruction built from a transcript. *)
Definition synthesis_instruction (problem additional : text)
    (messages : list text) : text :=
  synthesis_prompt problem (additional_field additional)
    (conversation_string_of messages).

(** The report instruction built from a synthesis. *)
Definition report_instruction (synthesis : text) : text :=
  lit "###START REPORT" ++ nl ++ synthesis ++ nl
  ++ lit "###END REPORT" ++ nl ++ nl
  ++ lit "Reformat the above write-up via HTML into a professional-looking report. Use Times New Roman"
  ++ nl ++ lit "<!DOCTYPE html>".

(** The two completion requests of the synthesis stage for a context
    ceiling [c]. *)
Definition synthesis_request (args : Args) (enc : text -> list Z) (c : Z)
    (problem additional : text) (messages : list text) : Request :=
  mkRequest (engine args)
    [mkMessage (lit "user") (synthesis_instruction problem additional messages)]
    (c - len (enc (synthesis_instruction problem additional messages)))
    (temp args) (top_p args).

Definition report_request (args : Args) (enc : text -> list Z) (c : Z)
    (synthesis : text) : Request :=
  mkRequest (engine args)
    [mkMessage (lit "user") (report_instruction synthesis)]
    (c - len (enc synthesis)) (temp args) (top_p args).

(** Console lines of the synthesis stage. *)
Definition synthesis_banner : text :=
  rule ++ nl ++ lit "Synthesizing information..." ++ nl ++ rule.

Definition synthesis_line (synthesis : text) : text :=
  nl ++ rule ++ nl ++ lit "Synthesis: " ++ synthesis ++ nl ++ rule ++ nl.

Definition session_banner : text :=
  lit "Starting brainstorming session..." ++ nl ++ rule.

(** The world with other files. *)
Definition with_files (w : World) (fs : gmap string text) : World :=
  mkWorld (requests w) (stdout w) fs.

(** The files after the two text exports. *)
Definition text_files (fs : gmap string text)
    (problem additional seed : text) (messages : list text)
    (synthesis : text) : gmap string text :=
  <["synthesis.txt" := synthesis_file problem additional seed synthesis]>
    (<["conversation.txt" :=
         conversation_file problem additional seed messages]> fs).

(** Fifty characters: the shortest reply that does not end the debate. *)
Definition fifty : text := repeat 120%N 50.

(** ** Reading the conversation file back *)

(** [split_lines s] is [s.split("\n")]. *)
Fixpoint split_lines (s : text) : list text :=
  match s with
  | [] => [[]]
  | c :: s' =>
      if (c =? 10)%N then [] :: split_lines s'
      else match split_lines s' with
           | l :: ls => (c :: l) :: ls
           | [] => [[c]]
           end
  end.

(** [remove_prefix p s] is the rest of [s] after the prefix [p], if [s]
    starts with [p]. *)
Fixpoint remove_prefix (p s : text) : option text :=
  match p, s with
  | [], _ => Some s
  | a :: p', b :: s' => if (a =? b)%N then remove_prefix p' s' else None
  | _ :: _, [] => None
  end.

(** The content of a line labelled [Agent 1: ] or [Agent 2: ]. *)
Definition labelled_content (line : text) : option text :=
  match remove_prefix (lit "Agent 1: ") line with
  | Some m => Some m
  | None => remove_prefix (lit "Agent 2: ") line
  end.

(** Lines grouped into entries: an entry starts at a labelled line, of
    which the content is kept, and takes the unlabelled lines that follow.
    The first component holds the lines before the first entry. *)
Fixpoint group_entries (lines : list text) : list text * list (list text) :=
  match lines with
  | [] => ([], [])
  | line :: rest =>
      let '(pending, entries) := group_entries rest in
      match labelled_content line with
      | Some m => ([], (m :: pending) :: entries)
      | None => (line :: pending, entries)
      end
  end.

(** The lines without the blank lines at their end. *)
Fixpoint drop_blank_tail (lines : list text) : list text :=
  match lines with
  | [] => []
  | l :: rest =>
      match drop_blank_tail rest with
      | [] => if decide (l = []) then [] else [l]
      | kept => l :: kept
      end
  end.

(** Modelled from the spec: the reader of the conversation file, which the
    repository does not contain.  The spec speaks of re-parsing the
    [Agent N:] labelled lines and of recovering the ordered message
    contents; the reader splits the file into lines, starts a message at
    every line that begins with [Agent 1: ] or [Agent 2: ], gives it the
    lines up to the next such line, and drops the blank lines that
    separate the entries. *)
Definition parse_conversation (file : text) : list text :=
  (fun entry => join nl (drop_blank_tail entry))
    <$> snd (group_entries (split_lines file)).

(** A line without a label. *)
Definition unlabelled (line : text) : Prop := labelled_content line = None.

(** A text that the reader takes back whole: no line after its first
    starts with a label, and it does not end with a line break. *)
Definition delimited (s : text) : Prop :=
  Forall unlabelled (tail (split_lines s)) /\ last s <> Some 10%N.

(** Two debates over the same seed: in the first, the Agent-1 reply quotes
    two labelled turns; in the second, those turns are real. *)
Definition quoting_script : list Response :=
  [Choices (lit "a" ++ nl ++ nl ++ lit "Agent 1: " ++ fifty ++ nl ++ nl
            ++ lit "Agent 2: c") [];
   Choices (lit "d") []].

Definition plain_script : list Response :=
  [Choices (lit "a") []; Choices fifty []; Choices (lit "c") [];
   Choices (lit "d") []].

Definition quoting_transcript : list text :=
  [lit "s";
   lit "a" ++ nl ++ nl ++ lit "Agent 1: " ++ fifty ++ nl ++ nl
   ++ lit "Agent 2: c";
   lit "d"].

Definition plain_transcript : list text :=
  [lit "s"; lit "a"; fifty; lit "c"; lit "d"].

(** ** Concrete encoders and services for the examples *)

(** One token per code point. *)
Definition char_enc (s : text) : list Z := List.map Z.of_N s.

(** One token for every four code points, the rest in a last token: an
    encoder whose tokens are wider than one character. *)
Fixpoint quad_enc (s : text) : list Z :=
  match s with
  | a :: _ :: _ :: _ :: rest => Z.of_N a :: quad_enc rest
  | a :: _ => [Z.of_N a]
  | [] => []
  end.

(** A service that answers the [n]-th request with the [n]-th element of
    a script, and fails when the script is over. *)
Definition scripted (script : list Response) (n : nat) (r : Request)
    : Response :=
  nth n script (ServiceError (lit "quota exceeded")).

(** A service that always answers with the same text. *)
Definition constant_service (reply : text) (n : nat) (r : Request)
    : Response :=
  Choices reply [].

Definition args_with (e : text) (budget : Z) : Args :=
  mkArgs 0.8%float 0.95%float e budget.

(** The scenario of the specification: no seed is typed, the service
    proposes one, one pass of the debate follows and ends on a short
    reply, then the synthesis and the report are produced. *)
Definition demo_inputs : Inputs :=
  mkInputs (lit "reduce server latency") [] [].

Definition demo_script : list Response :=
  [Choices (lit " add a cache ") []; Choices (lit "first reply") [];
   Choices (lit " ok ") []; Choices (lit " final plan ") [];
   Choices (lit "<html></html>") []].

(** The same scenario cut short: the service fails from the fourth
    request on, which is the synthesis request. *)
Definition failing_script : list Response :=
  [Choices (lit " add a cache ") []; Choices (lit "first reply") [];
   Choices (lit " ok ") []].

(** ** Vocabulary for the properties of the whole run *)

(** No white space at either end: the shape of every [strip()] result. *)
Definition stripped (s : text) : bool :=
  match head s with Some c => negb (py_isspace c) | None => true end
  && match last s with Some c => negb (py_isspace c) | None => true end.

(** The requests of a debate that started from [messages] and appended
    the turns [extra], two per pass. *)
Fixpoint debate_requests (args : Args) (enc : text -> list Z)
    (active_prompt : text) (messages extra : list text) : list Request :=
  match extra with
  | agent1_response :: agent2_response :: extra' =>
      agent1_request args enc active_prompt messages
      :: agent2_request args enc active_prompt messages agent1_response
      :: debate_requests args enc active_prompt
           ((messages ++ [agent1_response]) ++ [agent2_response]) extra'
  | _ => []
  end.

(** The world in which the script from the seed on starts: the banner and
    the three prompts are on the console. *)
Definition after_prompts (w : World) : World :=
  mkWorld (requests w)
    ((((stdout w
        ++ [(lit "Welcome to BrainstormGPT " ++ [129504; 9928; 65039]%N ++ nl
             ++ rule) ++ nl])
       ++ [lit "Describe the problem you want to solve: "])
      ++ [lit "Describe any additional information you want to provide (leave blank if none): "])
     ++ [lit "Enter any initial proposals you have (leave blank if none): "])
    (files w).

(** The request that asks for a seed, and the console lines around it. *)
Definition seed_request (args : Args) (problem additional : text) : Request :=
  mkRequest (engine args)
    [mkMessage (lit "user")
       (if decide (additional = []) then
          lit "Given the following problem, propose a solution." ++ nl ++ nl
          ++ lit "Problem: " ++ problem ++ nl ++ nl
          ++ lit "Proposed solution:"
        else
          lit "Given the following problem and additional information, propose a solution."
          ++ nl ++ nl ++ lit "Problem: " ++ problem ++ nl ++ nl
          ++ lit "Additional Information: " ++ additional ++ nl ++ nl
          ++ lit "Proposed solution:")]
    default_max_tokens (temp args) (top_p args).

Definition generating_banner : text :=
  rule ++ nl ++ lit "Generating initial proposal..." ++ nl ++ rule.

Definition seed_line (seed : text) : text :=
  nl ++ rule ++ nl ++ lit "Initial proposal: " ++ seed ++ nl ++ rule ++ nl.

(** The names of the files the script writes. *)
Definition output_files : list string :=
  ["conversation.txt"; "synthesis.txt"; "report.html"]%string.

(** * Properties *)

(** ** Arithmetic and text helpers *)

Lemma mod2_of_nat (i : nat) :
  Z.of_nat i mod 2 = if Nat.even i then 0 else 1.
Proof.
  destruct (Nat.even i) eqn:E.
  - apply Nat.even_spec in E. destruct E as [k ->].
    rewrite Nat2Z.inj_mul, Z.mul_comm. apply Z_mod_mult.
  - assert (Ho : Nat.odd i = true) by (now rewrite <- Nat.negb_even, E).
    apply Nat.odd_spec in Ho. destruct Ho as [k ->].
    rewrite Nat2Z.inj_add, Nat2Z.inj_mul, Z.add_comm, Z.mul_comm.
    now rewrite Z_mod_plus_full.
Qed.

Lemma assistant_is_not_user : lit "assistant" <> lit "user".
Proof. discriminate. Qed.

(** ** The chat request (claim C3) *)

Section ChatRequest.

Variable starter : text.
Hypothesis starter_known : starter = lit "user" \/ starter = lit "assistant".

(** One step of the loop appends the message with the role of its
    position. *)
Lemma chat_loop_step (i : nat) (message : text) (rest : list text)
    (messages : list Message) :
  chat_loop starter i (message :: rest) messages
  = chat_loop starter (S i) rest
      (messages ++ [mkMessage (role_at starter i) message]).
Proof.
  cbn [chat_loop]. f_equal. unfold role_at, other_role.
  rewrite mod2_of_nat.
  destruct starter_known as [-> | ->].
  - rewrite (decide_True (P := lit "user" = lit "user")) by reflexivity.
    destruct (Nat.even i); reflexivity.
  - rewrite (decide_False (P := lit "assistant" = lit "user"))
      by exact assistant_is_not_user.
    destruct (Nat.even i); reflexivity.
Qed.

Lemma chat_loop_imap (h : list text) :
  forall (i : nat) (messages : list Message),
    chat_loop starter i h messages
    = messages ++ imap (fun j m => mkMessage (role_at starter (i + j)) m) h.
Proof.
  induction h as [| message rest IH]; intros i messages.
  - cbn. now rewrite app_nil_r.
  - rewrite chat_loop_step, IH, imap_cons, <- app_assoc. cbn [app].
    rewrite Nat.add_0_r. do 2 f_equal.
    apply imap_ext. intros j x _. cbn. f_equal. f_equal. lia.
Qed.

End ChatRequest.

(** C3: for a starter role among user and assistant, the request built by
    [chat_GPT] starts with the system message carrying the system prompt,
    continues with one message per element of the history, in order, the
    element at position [i] carrying the starter role when [i] is even and
    the opposite role when [i] is odd; the request is sent as built and
    the call returns the content of the first choice of the answer. *)
Theorem chat_GPT_alternates_roles
    (service : nat -> Request -> Response) (h : list text)
    (system_prompt starter : text) (max_tokens : Z) (eng : text)
    (t p : float) :
  starter = lit "user" \/ starter = lit "assistant" ->
  let req := chat_request h system_prompt starter max_tokens eng t p in
  req_messages req
  = mkMessage (lit "system") system_prompt
    :: imap (fun i m => mkMessage (role_at starter i) m) h
  /\ length (req_messages req) = S (length h)
  /\ (forall i m, h !! i = Some m ->
        req_messages req !! S i
        = Some (mkMessage (if Nat.even i then starter else other_role starter) m))
  /\ (forall w first others,
        service (length (requests w)) req = Choices first others ->
        chat_GPT service h system_prompt starter max_tokens eng t p w
        = (sent w req, Ok first)).
Proof.
  intros Hs req.
  assert (Hm : req_messages req
               = mkMessage (lit "system") system_prompt
                 :: imap (fun i m => mkMessage (role_at starter i) m) h).
  { unfold req, chat_request. cbn [req_messages].
    rewrite chat_loop_imap by exact Hs. reflexivity. }
  split; [exact Hm |]. split; [| split].
  - rewrite Hm. cbn. now rewrite length_imap.
  - intros i m Hi. rewrite Hm.
    transitivity (imap (fun i m => mkMessage (role_at starter i) m) h !! i);
      [reflexivity |].
    rewrite list_lookup_imap, Hi. reflexivity.
  - intros w first others Hans. unfold chat_GPT, create. fold req.
    now rewrite Hans.
Qed.

(** C3 at a three-element history started by the user. *)
Lemma chat_GPT_alternates_roles_witness :
  req_messages
    (chat_request [lit "a"; lit "b"; lit "c"] (lit "sys") (lit "user")
       7 (lit "gpt-4") 0.8%float 0.95%float)
  = [mkMessage (lit "system") (lit "sys"); mkMessage (lit "user") (lit "a");
     mkMessage (lit "assistant") (lit "b"); mkMessage (lit "user") (lit "c")].
Proof.
  exact (proj1 (chat_GPT_alternates_roles (constant_service [])
                  [lit "a"; lit "b"; lit "c"] (lit "sys") (lit "user")
                  7 (lit "gpt-4") 0.8%float 0.95%float
                  (or_introl eq_refl))).
Defined.

(** ** One pass through the loop body (claim C2) *)

Section Loop.

Variable service : nat -> Request -> Response.
Variable enc : text -> list Z.
Variable args : Args.
Variable active_prompt : text.

Local Abbreviation req1 messages :=
  (agent1_request args enc active_prompt messages).
Local Abbreviation req2 messages a1 :=
  (agent2_request args enc active_prompt messages a1).

Lemma length_requests_sent (w : World) (r : Request) :
  length (requests (sent w r)) = S (length (requests w)).
Proof. cbn. rewrite length_app. cbn. lia. Qed.

(** The first call fails: the pass raises after one request. *)
Lemma iteration_first_fails (messages : list text) (w : World) (e : text) :
  service (length (requests w)) (req1 messages) = ServiceError e ->
  iteration service enc args active_prompt messages w
  = (sent w (req1 messages), Raise (OpenAIError e)).
Proof.
  intros H1. unfold iteration, bind, chat_GPT, create.
  fold (agent1_request args enc active_prompt messages).
  now rewrite H1.
Qed.

(** The second call fails: the pass raises after two requests and one
    console line. *)
Lemma iteration_second_fails (messages : list text) (w : World)
    (r1 : text) (o1 : list text) (e : text) :
  service (length (requests w)) (req1 messages) = Choices r1 o1 ->
  service (S (length (requests w))) (req2 messages (strip r1))
  = ServiceError e ->
  iteration service enc args active_prompt messages w
  = (sent (printed (sent w (req1 messages)) (agent1_line (strip r1)))
       (req2 messages (strip r1)),
     Raise (OpenAIError e)).
Proof.
  intros H1 H2. unfold iteration, bind, chat_GPT, create.
  fold (agent1_request args enc active_prompt messages).
  rewrite H1. cbn [print requests stdout files].
  fold (agent2_request args enc active_prompt messages (strip r1)).
    rewrite length_app. cbn [length]. rewrite Nat.add_1_r, H2.
  reflexivity.
Qed.

(** Both calls are answered: two requests, two console lines, two new
    messages, and the [break] test on the second reply. *)
Lemma iteration_answered (messages : list text) (w : World)
    (r1 r2 : text) (o1 o2 : list text) :
  service (length (requests w)) (req1 messages) = Choices r1 o1 ->
  service (S (length (requests w))) (req2 messages (strip r1))
  = Choices r2 o2 ->
  iteration service enc args active_prompt messages w
  = (after_iteration w (req1 messages) (req2 messages (strip r1))
       (strip r1) (strip r2),
     Ok ((messages ++ [strip r1]) ++ [strip r2], len (strip r2) <? 50)).
Proof.
  intros H1 H2. unfold iteration, bind, chat_GPT, create.
  fold (agent1_request args enc active_prompt messages).
  rewrite H1. cbn [print requests stdout files].
  fold (agent2_request args enc active_prompt messages (strip r1)).
    rewrite length_app. cbn [length]. rewrite Nat.add_1_r, H2.
  reflexivity.
Qed.

(** Whatever the service answers, the pass first sends the Agent-1
    request. *)
Lemma iteration_sends_first (messages : list text) (w : World) :
  exists rest,
    requests (fst (iteration service enc args active_prompt messages w))
    = requests w ++ req1 messages :: rest.
Proof.
  destruct (service (length (requests w)) (req1 messages)) as [e | r1 o1] eqn:H1.
  - rewrite (iteration_first_fails _ _ _ H1). now exists [].
  - destruct (service (S (length (requests w))) (req2 messages (strip r1)))
      as [e | r2 o2] eqn:H2.
    + rewrite (iteration_second_fails _ _ _ _ _ H1 H2).
      exists [req2 messages (strip r1)]. cbn. now rewrite <- app_assoc.
    + rewrite (iteration_answered _ _ _ _ _ _ H1 H2).
      exists [req2 messages (strip r1)]. cbn. now rewrite <- app_assoc.
Qed.

(** ** The loop *)

Lemma debating_budget_spent (fuel : nat) (messages : list text) (w : World) :
  max_len args <= compute_total_tokens messages enc ->
  debating service enc args fuel active_prompt messages w = (w, Ok messages).
Proof.
  intros H. destruct fuel; cbn [debating];
    (destruct (Z.ltb_spec (compute_total_tokens messages enc) (max_len args));
     [lia | reflexivity]).
Qed.

Lemma debating_enters (fuel : nat) (messages : list text) (w : World) :
  compute_total_tokens messages enc < max_len args ->
  debating service enc args (S fuel) active_prompt messages w
  = (r <- iteration service enc args active_prompt messages ;;
     if snd r then ret (fst r)
     else debating service enc args fuel active_prompt (fst r)) w.
Proof.
  intros H. cbn [debating].
  destruct (Z.ltb_spec (compute_total_tokens messages enc) (max_len args));
    [reflexivity | lia].
Qed.

Lemma debating_no_fuel (messages : list text) (w : World) :
  compute_total_tokens messages enc < max_len args ->
  debating service enc args 0 active_prompt messages w = (w, OutOfFuel).
Proof.
  intros H. cbn [debating].
  destruct (Z.ltb_spec (compute_total_tokens messages enc) (max_len args));
    [reflexivity | lia].
Qed.

(** After a pass that was answered, the loop either returns or goes
    round again. *)
Lemma debating_after_answered (fuel : nat) (messages : list text)
    (w : World) (r1 r2 : text) (o1 o2 : list text) :
  compute_total_tokens messages enc < max_len args ->
  service (length (requests w)) (req1 messages) = Choices r1 o1 ->
  service (S (length (requests w))) (req2 messages (strip r1))
  = Choices r2 o2 ->
  let messages' := (messages ++ [strip r1]) ++ [strip r2] in
  let w' := after_iteration w (req1 messages) (req2 messages (strip r1))
              (strip r1) (strip r2) in
  debating service enc args (S fuel) active_prompt messages w
  = if len (strip r2) <? 50 then (w', Ok messages')
    else debating service enc args fuel active_prompt messages' w'.
Proof.
  intros Hb H1 H2 messages' w'.
  rewrite (debating_enters _ _ _ Hb). unfold bind at 1.
  rewrite (iteration_answered _ _ _ _ _ _ H1 H2). cbn [fst snd].
  now destruct (len (strip r2) <? 50).
Qed.

(** The loop only appends to the list of requests. *)
Lemma iteration_appends (messages : list text) (w : World) :
  exists rest,
    requests (fst (iteration service enc args active_prompt messages w))
    = requests w ++ rest.
Proof.
  destruct (iteration_sends_first messages w) as [rest H].
  eexists. exact H.
Qed.

Lemma debating_appends (fuel : nat) :
  forall (messages : list text) (w : World),
  exists rest,
    requests (fst (debating service enc args fuel active_prompt messages w))
    = requests w ++ rest.
Proof.
  induction fuel as [| fuel IH]; intros messages w.
  - cbn [debating].
    destruct (compute_total_tokens messages enc <? max_len args);
      exists []; cbn; now rewrite app_nil_r.
  - cbn [debating].
    destruct (compute_total_tokens messages enc <? max_len args);
      [| exists []; cbn; now rewrite app_nil_r].
    unfold bind.
    destruct (iteration_appends messages w) as [rest1 H1].
    destruct (iteration service enc args active_prompt messages w)
      as [w1 [[ms brk] | e |]]; cbn [fst snd] in *.
    + destruct brk.
      * exists rest1. exact H1.
      * destruct (IH ms w1) as [rest2 H2].
        exists (rest1 ++ rest2). now rewrite H2, H1, app_assoc.
    + exists rest1. exact H1.
    + exists rest1. exact H1.
Qed.

(** When the budget allows a pass and fuel is left, the next request is
    the Agent-1 request on the current transcript. *)
Lemma debating_sends_first (fuel : nat) (messages : list text) (w : World) :
  compute_total_tokens messages enc < max_len args ->
  exists rest,
    requests (fst (debating service enc args (S fuel) active_prompt
                     messages w))
    = requests w ++ req1 messages :: rest.
Proof.
  intros Hb. rewrite (debating_enters _ _ _ Hb). unfold bind.
  destruct (iteration_sends_first messages w) as [rest1 H1].
  destruct (iteration service enc args active_prompt messages w)
    as [w1 [[ms brk] | e |]]; cbn [fst snd] in *.
  - destruct brk.
    + exists rest1. exact H1.
    + destruct (debating_appends fuel ms w1) as [rest2 H2].
      exists (rest1 ++ rest2). rewrite H2, H1, <- app_assoc. reflexivity.
  - exists rest1. exact H1.
  - exists rest1. exact H1.
Qed.

End Loop.

(** C2: in one pass through the loop body both chat requests carry the same
    [max_tokens], namely [max_len] minus the token count of the transcript
    as it stood before the Agent-1 turn; the second request is built on
    the transcript extended by the Agent-1 reply but with the budget of
    the first. *)
Theorem iteration_shares_budget_snapshot
    (service : nat -> Request -> Response) (enc : text -> list Z)
    (args : Args) (active_prompt : text) (messages : list text) (w : World) :
  let budget := max_len args - compute_total_tokens messages enc in
  let first_request :=
    chat_request messages active_prompt (lit "user") budget
      (engine args) (temp args) (top_p args) in
  req_max_tokens first_request = budget
  /\ match service (length (requests w)) first_request with
     | ServiceError _ =>
         requests (fst (iteration service enc args active_prompt messages w))
         = requests w ++ [first_request]
     | Choices r1 _ =>
         let second_request :=
           chat_request (messages ++ [strip r1]) active_prompt
             (lit "assistant") budget (engine args) (temp args) (top_p args) in
         requests (fst (iteration service enc args active_prompt messages w))
         = requests w ++ [first_request; second_request]
         /\ req_max_tokens second_request = req_max_tokens first_request
     end.
Proof.
  intros budget first_request. split; [reflexivity |].
  destruct (service (length (requests w)) first_request) as [e | r1 o1] eqn:H1.
  - now rewrite (iteration_first_fails service enc args active_prompt
                   messages w e H1).
  - intros second_request. split; [| reflexivity].
    destruct (service (S (length (requests w))) second_request)
      as [e | r2 o2] eqn:H2.
    + rewrite (iteration_second_fails service enc args active_prompt
                 messages w r1 o1 e H1 H2).
      cbn. now rewrite <- app_assoc.
    + rewrite (iteration_answered service enc args active_prompt
                 messages w r1 r2 o1 o2 H1 H2).
      cbn. now rewrite <- app_assoc.
Qed.

(** A run in which the shared budget differs from what a recount after the
    Agent-1 turn would give: with one token per character and a budget of
    100, both requests ask for 96 tokens although the transcript has grown
    to 16 tokens when the second is sent. *)
Example budget_is_not_recounted :
  let service := scripted [Choices (lit "first reply") []; Choices (lit "ok") []] in
  let args := args_with (lit "gpt-4") 100 in
  List.map req_max_tokens
    (requests (fst (iteration service char_enc args (lit "sys") [lit "seed"]
                      init_world)))
  = [96; 96]
  /\ max_len args
     - compute_total_tokens ([lit "seed"] ++ [lit "first reply"]) char_enc
     = 84.
Proof. split; vm_compute; reflexivity. Qed.

(** C1: after a pass in which both calls were answered, a stripped Agent-2
    reply of fewer than 50 characters ends the loop at once with the
    transcript of that pass and no further request, whatever fuel is left;
    a reply of 50 characters or more sends the loop back to its test, so
    that it goes round again exactly when the token count of the new
    transcript is still below [max_len]. *)
Theorem short_agent2_reply_stops
    (service : nat -> Request -> Response) (enc : text -> list Z)
    (args : Args) (active_prompt : text) (fuel : nat)
    (messages : list text) (w : World) (r1 r2 : text) (o1 o2 : list text) :
  compute_total_tokens messages enc < max_len args ->
  service (length (requests w))
    (agent1_request args enc active_prompt messages) = Choices r1 o1 ->
  service (S (length (requests w)))
    (agent2_request args enc active_prompt messages (strip r1))
  = Choices r2 o2 ->
  let messages' := (messages ++ [strip r1]) ++ [strip r2] in
  let w' :=
    after_iteration w (agent1_request args enc active_prompt messages)
      (agent2_request args enc active_prompt messages (strip r1))
      (strip r1) (strip r2) in
  let run := debating service enc args (S fuel) active_prompt messages w in
  (Z.of_nat (length (strip r2)) < 50 -> run = (w', Ok messages'))
  /\ (50 <= Z.of_nat (length (strip r2)) ->
      run = debating service enc args fuel active_prompt messages' w'
      /\ (max_len args <= compute_total_tokens messages' enc ->
          run = (w', Ok messages'))
      /\ (compute_total_tokens messages' enc < max_len args ->
          (0 < fuel)%nat ->
          exists rest,
            requests (fst run)
            = requests w'
              ++ agent1_request args enc active_prompt messages' :: rest)).
Proof.
  intros Hb H1 H2 messages' w' run.
  pose proof (debating_after_answered service enc args active_prompt fuel
                messages w r1 r2 o1 o2 Hb H1 H2) as Hrun.
  cbv zeta in Hrun. fold messages' w' run in Hrun. unfold len in Hrun.
  split.
  - intros Hshort. rewrite Hrun.
    destruct (Z.ltb_spec (Z.of_nat (length (strip r2))) 50); [reflexivity | lia].
  - intros Hlong.
    assert (Hgo : run = debating service enc args fuel active_prompt
                          messages' w').
    { rewrite Hrun.
      destruct (Z.ltb_spec (Z.of_nat (length (strip r2))) 50);
        [lia | reflexivity]. }
    split; [exact Hgo |]. split.
    + intros Hspent. rewrite Hgo. now apply debating_budget_spent.
    + intros Hleft Hfuel. rewrite Hgo.
      destruct fuel as [| fuel']; [lia |].
      apply debating_sends_first. exact Hleft.
Qed.

(** C1 on a run whose Agent-2 reply is two characters long: the loop stops
    after the first pass although the budget would allow more. *)
Lemma short_agent2_reply_stops_witness :
  snd (debating
         (scripted [Choices (lit "first reply") []; Choices (lit " ok ") []])
         char_enc (args_with (lit "gpt-4") 100) 7 (lit "sys") [lit "seed"]
         init_world)
  = Ok [lit "seed"; lit "first reply"; lit "ok"].
Proof.
  destruct (short_agent2_reply_stops
              (scripted [Choices (lit "first reply") []; Choices (lit " ok ") []])
              char_enc (args_with (lit "gpt-4") 100) (lit "sys") 6
              [lit "seed"] init_world (lit "first reply") (lit " ok ") [] [])
    as [Hstop _].
  - vm_compute. reflexivity.
  - reflexivity.
  - reflexivity.
  - rewrite Hstop; [reflexivity | vm_compute; reflexivity].
Defined.

(** ** Termination of the loop (claim C6) *)

(** A pass never runs out of fuel, and a pass that returns has appended
    exactly two messages and reports [break] from the length of the
    second. *)
Lemma iteration_result
    (service : nat -> Request -> Response) (enc : text -> list Z)
    (args : Args) (active_prompt : text) (messages : list text) (w : World) :
  match snd (iteration service enc args active_prompt messages w) with
  | Ok (ms, brk) =>
      exists a b, ms = (messages ++ [a]) ++ [b] /\ brk = (len b <? 50)
  | Raise _ => True
  | OutOfFuel => False
  end.
Proof.
  destruct (service (length (requests w))
              (agent1_request args enc active_prompt messages))
    as [e | r1 o1] eqn:H1.
  - now rewrite (iteration_first_fails _ _ _ _ _ _ _ H1).
  - destruct (service (S (length (requests w)))
                (agent2_request args enc active_prompt messages (strip r1)))
      as [e | r2 o2] eqn:H2.
    + now rewrite (iteration_second_fails _ _ _ _ _ _ _ _ _ H1 H2).
    + rewrite (iteration_answered _ _ _ _ _ _ _ _ _ _ H1 H2). cbn.
      now exists (strip r1), (strip r2).
Qed.

(** The length of a joined list after one more element. *)
Lemma join_snoc_length (sep : text) (parts : list text) (p : text) :
  (length (join sep parts) + length p <= length (join sep (parts ++ [p])))%nat.
Proof.
  induction parts as [| q parts IH].
  - cbn. lia.
  - destruct parts as [| q' parts].
    + cbn. rewrite !length_app. lia.
    + change (join sep ((q :: q' :: parts) ++ [p]))
        with (q ++ sep ++ join sep ((q' :: parts) ++ [p])).
      change (join sep (q :: q' :: parts))
        with (q ++ sep ++ join sep (q' :: parts)).
      rewrite !length_app in *. lia.
Qed.

Section Termination.

Variable service : nat -> Request -> Response.
Variable enc : text -> list Z.
Variable args : Args.
Variable active_prompt : text.

(** The tokens of the encoder have a bounded width: no text has more than
    [width] code points per token.  A tokenizer with a finite vocabulary,
    as [cl100k_base] is, has such a bound. *)
Variable width : Z.
Hypothesis width_positive : 0 < width.
Hypothesis bounded_width : forall s : text, len s <= width * len (enc s).

(** While the loop goes round, the joined transcript is shorter than
    [width * max_len] characters, and every pass that does not [break]
    makes it longer. *)
Lemma debating_finishes_within (fuel : nat) :
  forall (messages : list text) (w : World),
    width * max_len args - len (join nl messages) <= Z.of_nat fuel ->
    snd (debating service enc args fuel active_prompt messages w)
    <> OutOfFuel.
Proof.
  induction fuel as [| fuel IH]; intros messages w Hfuel.
  - destruct (Z.lt_ge_cases (compute_total_tokens messages enc) (max_len args))
      as [Hb | Hb]; [| rewrite debating_budget_spent by lia; discriminate].
    exfalso. unfold compute_total_tokens in Hb.
    pose proof (bounded_width (join nl messages)) as Hw. nia.
  - destruct (Z.lt_ge_cases (compute_total_tokens messages enc) (max_len args))
      as [Hb | Hb]; [| rewrite debating_budget_spent by lia; discriminate].
    rewrite debating_enters by exact Hb. unfold bind.
    pose proof (iteration_result service enc args active_prompt messages w)
      as Hit.
    destruct (iteration service enc args active_prompt messages w)
      as [w1 [[ms brk] | e |]]; cbn [fst snd] in *.
    + destruct Hit as (a & b & -> & ->).
      destruct (Z.ltb_spec (len b) 50) as [Hs | Hl]; [discriminate |].
      apply IH.
      pose proof (join_snoc_length nl messages a) as H1.
      pose proof (join_snoc_length nl (messages ++ [a]) b) as H2.
      unfold len in *. lia.
    + discriminate.
    + contradiction.
Qed.

End Termination.

(** Fuel beyond what a finished run needed changes nothing. *)
Lemma debating_more_fuel
    (service : nat -> Request -> Response) (enc : text -> list Z)
    (args : Args) (active_prompt : text) (fuel : nat) :
  forall (messages : list text) (w : World),
    snd (debating service enc args fuel active_prompt messages w) <> OutOfFuel ->
    debating service enc args (S fuel) active_prompt messages w
    = debating service enc args fuel active_prompt messages w.
Proof.
  induction fuel as [| fuel IH]; intros messages w Hfin.
  - destruct (Z.lt_ge_cases (compute_total_tokens messages enc) (max_len args))
      as [Hb | Hb].
    + rewrite debating_no_fuel in Hfin by exact Hb. now cbn in Hfin.
    + now rewrite !debating_budget_spent by lia.
  - destruct (Z.lt_ge_cases (compute_total_tokens messages enc) (max_len args))
      as [Hb | Hb]; [| now rewrite !debating_budget_spent by lia].
    rewrite (debating_enters _ _ _ _ (S fuel)) by exact Hb.
    rewrite (debating_enters _ _ _ _ fuel) in Hfin |- * by exact Hb.
    unfold bind in *.
    destruct (iteration service enc args active_prompt messages w)
      as [w1 [[ms brk] | e |]]; cbn [fst snd] in *; try reflexivity.
    destruct brk; [reflexivity |]. now apply IH.
Qed.

(** The two encoders of the examples have tokens of bounded width. *)
Lemma char_enc_width (s : text) : len s <= 1 * len (char_enc s).
Proof. unfold len, char_enc. rewrite length_map. lia. Qed.

Lemma quad_enc_width (s : text) : len s <= 4 * len (quad_enc s).
Proof.
  unfold len.
  assert (H : forall (n : nat) (t : text),
             (length t <= n)%nat ->
             Z.of_nat (length t) <= 4 * Z.of_nat (length (quad_enc t))).
  { induction n as [| n IH]; intros t Ht.
    - destruct t; [cbn; lia | cbn in Ht; lia].
    - destruct t as [| a [| b [| c [| d rest]]]]; cbn [quad_enc length];
        try lia.
      assert (Hrest : (length rest <= n)%nat) by (cbn in Ht; lia).
      specialize (IH rest Hrest). lia. }
  exact (H (length s) s (Nat.le_refl _)).
Qed.

(** C6: for every [max_len], every service (so every sequence of replies,
    empty ones and ones that add no token included) and every encoder
    whose tokens have a bounded width, as the fixed tokenizer of the
    script has, the loop finishes, by returning or by raising, within
    [width * max_len] passes, and allowing more passes does not change
    its result. *)
Theorem debating_terminates
    (service : nat -> Request -> Response) (enc : text -> list Z)
    (args : Args) (active_prompt : text) (messages : list text) (w : World)
    (width : Z) :
  0 < width ->
  (forall s : text, len s <= width * len (enc s)) ->
  let bound := Z.to_nat (width * max_len args) in
  snd (debating service enc args bound active_prompt messages w) <> OutOfFuel
  /\ forall extra,
       debating service enc args (bound + extra) active_prompt messages w
       = debating service enc args bound active_prompt messages w.
Proof.
  intros Hpos Hwidth bound.
  assert (Hfin : snd (debating service enc args bound active_prompt messages w)
                 <> OutOfFuel).
  { apply (debating_finishes_within service enc args active_prompt width
             Hpos Hwidth).
    pose proof (Nat2Z.is_nonneg (length (join nl messages))).
    unfold bound, len. lia. }
  split; [exact Hfin |].
  induction extra as [| extra IH].
  - now rewrite Nat.add_0_r.
  - rewrite Nat.add_succ_r, debating_more_fuel; [exact IH |].
    now rewrite IH.
Qed.

(** C6 on a service that always answers with fifty characters, tokens of
    four characters and a budget of 120 tokens: 480 passes are enough. *)
Lemma debating_terminates_witness :
  snd (debating (constant_service fifty) quad_enc (args_with (lit "gpt-4") 120)
         (Z.to_nat (4 * 120)) (lit "sys") [lit "seed"] init_world)
  <> OutOfFuel.
Proof.
  exact (proj1 (debating_terminates (constant_service fifty) quad_enc
                  (args_with (lit "gpt-4") 120) (lit "sys") [lit "seed"]
                  init_world 4 eq_refl quad_enc_width)).
Defined.

(** ** The synthesis stage (claims C5, C7, C8, C9) *)

Lemma world_eta (w : World) :
  mkWorld (requests w) (stdout w) (files w) = w.
Proof. now destruct w. Qed.

(** The flattening loop appends to what it was given. *)
Lemma flatten_loop_acc (messages : list text) :
  forall (i : nat) (acc : text),
    flatten_loop i messages acc = acc ++ flatten_loop i messages [].
Proof.
  induction messages as [| message rest IH]; intros i acc.
  - cbn. now rewrite app_nil_r.
  - cbn [flatten_loop]. rewrite (IH (S i) (acc ++ agent_entry i message)).
    rewrite (IH (S i) ([] ++ agent_entry i message)).
    now rewrite <- app_assoc.
Qed.

(** Writing the entries of a transcript into an open file appends what the
    flattening loop accumulates. *)
Lemma export_loop_writes (name : string) (messages : list text) :
  forall (i : nat) (w : World) (old : text),
    files w !! name = Some old ->
    export_loop name i messages w
    = (with_files w (<[name := flatten_loop i messages old]> (files w)), Ok tt).
Proof.
  induction messages as [| message rest IH]; intros i w old Hold.
  - cbn. unfold ret, with_files. rewrite insert_id by exact Hold.
    now rewrite world_eta.
  - cbn [export_loop flatten_loop]. unfold bind, write at 1. cbv beta.
    rewrite Hold. cbn [default].
    rewrite (IH (S i) _ (old ++ agent_entry i message)).
    + unfold with_files. cbn [requests stdout files].
      now rewrite insert_insert_eq.
    + cbn [files]. apply lookup_insert_eq.
Qed.

Section Synthesis.

Variable service : nat -> Request -> Response.
Variable enc : text -> list Z.
Variable args : Args.
Variables problem additional seed : text.
Variable messages : list text.

(** Without a bound [context_len] the stage raises before any request. *)
Lemma synthesis_stage_unbound (w : World) :
  synthesis_stage service enc args None problem additional seed messages w
  = (printed w synthesis_banner, Raise (NameError "context_len")).
Proof. reflexivity. Qed.

(** The synthesis call fails: one request, nothing written. *)
Lemma synthesis_stage_first_fails (c : Z) (w : World) (e : text) :
  service (length (requests w))
    (synthesis_request args enc c problem additional messages)
  = ServiceError e ->
  synthesis_stage service enc args (Some c) problem additional seed messages w
  = (sent (printed w synthesis_banner)
       (synthesis_request args enc c problem additional messages),
     Raise (OpenAIError e)).
Proof.
  intros H1. unfold synthesis_stage, bind, query_GPT, create.
  cbn [print read_context_len ret requests stdout files].
  fold (synthesis_instruction problem additional messages).
  fold (synthesis_request args enc c problem additional messages).
  now rewrite H1.
Qed.

(** The world just before the report call. *)
Lemma synthesis_stage_answered (c : Z) (w : World) (r : text)
    (o : list text) :
  service (length (requests w))
    (synthesis_request args enc c problem additional messages)
  = Choices r o ->
  let w1 :=
    printed (sent (printed w synthesis_banner)
               (synthesis_request args enc c problem additional messages))
      (synthesis_line (strip r)) in
  let w2 :=
    with_files w1
      (text_files (files w) problem additional seed messages (strip r)) in
  synthesis_stage service enc args (Some c) problem additional seed messages w
  = match service (S (length (requests w)))
            (report_request args enc c (strip r)) with
    | ServiceError e =>
        (sent w2 (report_request args enc c (strip r)),
         Raise (OpenAIError e))
    | Choices html _ =>
        (with_files (sent w2 (report_request args enc c (strip r)))
           (<["report.html" := html]> (files w2)),
         Ok tt)
    end.
Proof.
  intros H1 w1 w2. unfold synthesis_stage, bind at 1 2 3 4.
  unfold query_GPT at 1, create.
  cbn [print read_context_len ret requests stdout files].
  fold (synthesis_instruction problem additional messages).
  fold (synthesis_request args enc c problem additional messages).
  rewrite H1. unfold bind at 1 2 3. cbn [open_w write requests stdout files].
  rewrite lookup_insert_eq. cbn [default app].
  rewrite insert_insert_eq.
  unfold bind at 1.
  rewrite (export_loop_writes "conversation.txt" messages 0 _
             (file_header problem additional seed))
    by (cbn [files]; apply lookup_insert_eq).
  rewrite flatten_loop_acc.
  fold (conversation_file problem additional seed messages).
  unfold with_files at 1. cbn [requests stdout files].
  rewrite insert_insert_eq.
  unfold bind, open_w, write, query_GPT, create.
  cbn [read_context_len ret requests stdout files].
  rewrite !lookup_insert_eq. cbn [default app].
  rewrite !insert_insert_eq.
  fold (report_instruction (strip r)).
  fold (report_request args enc c (strip r)).
  rewrite length_app. cbn [length]. rewrite Nat.add_1_r.
  destruct (service (S (length (requests w)))
              (report_request args enc c (strip r))) as [e | html o'].
  - reflexivity.
  - unfold with_files, sent, w2, w1, with_files, printed, sent, text_files.
    cbn [requests stdout files].
    rewrite lookup_insert_eq, insert_insert_eq. reflexivity.
Qed.

End Synthesis.

(** C8: with a context ceiling [c] for the engine, the synthesis request
    asks for [c] minus the token count of the whole synthesis instruction,
    and the report request that follows asks for [c] minus the token count
    of the stripped synthesis text alone, not of the report instruction. *)
Theorem completion_requests_sized_against_ceiling
    (service : nat -> Request -> Response) (enc : text -> list Z)
    (args : Args) (problem additional seed : text) (messages : list text)
    (w : World) (c : Z) :
  context_len_of (engine args) = Some c ->
  let run :=
    synthesis_stage service enc args (context_len_of (engine args))
      problem additional seed messages w in
  let instruction :=
    synthesis_prompt problem (additional_field additional)
      (conversation_string_of messages) in
  let first_request :=
    mkRequest (engine args) [mkMessage (lit "user") instruction]
      (c - Z.of_nat (length (enc instruction))) (temp args) (top_p args) in
  (c = 4000 \/ c = 8000)
  /\ match service (length (requests w)) first_request with
     | ServiceError _ => requests (fst run) = requests w ++ [first_request]
     | Choices r _ =>
         let synthesis := strip r in
         let second_request :=
           mkRequest (engine args)
             [mkMessage (lit "user") (report_instruction synthesis)]
             (c - Z.of_nat (length (enc synthesis))) (temp args) (top_p args) in
         requests (fst run) = requests w ++ [first_request; second_request]
     end.
Proof.
  intros Hc run instruction first_request. split.
  - unfold context_len_of in Hc.
    repeat case_decide; inversion Hc; auto.
  - unfold run. rewrite Hc.
    change first_request
      with (synthesis_request args enc c problem additional messages).
    destruct (service (length (requests w))
                (synthesis_request args enc c problem additional messages))
      as [e | r o] eqn:H1.
    + now rewrite (synthesis_stage_first_fails service enc args problem
                     additional seed messages c w e H1).
    + rewrite (synthesis_stage_answered service enc args problem additional
                 seed messages c w r o H1).
      destruct (service (S (length (requests w)))
                  (report_request args enc c (strip r)));
        cbn [fst requests sent with_files printed];
        now rewrite <- app_assoc.
Qed.

(** C8 on a one-message transcript with the larger engine: the two
    requests ask for 8000 minus the 288 characters of the instruction and
    8000 minus the 10 characters of the synthesis. *)
Lemma completion_requests_sized_against_ceiling_witness :
  List.map req_max_tokens
    (requests
       (fst (synthesis_stage
               (scripted [Choices (lit " final plan ") []; Choices (lit "<html>") []])
               char_enc (args_with (lit "gpt-4") 100)
               (context_len_of (engine (args_with (lit "gpt-4") 100)))
               (lit "p") [] (lit "s") [lit "s"] init_world)))
  = [8000 - 288; 8000 - 10].
Proof.
  destruct (completion_requests_sized_against_ceiling
              (scripted [Choices (lit " final plan ") []; Choices (lit "<html>") []])
              char_enc (args_with (lit "gpt-4") 100) (lit "p") [] (lit "s")
              [lit "s"] init_world 8000 eq_refl) as [_ Hreq].
  cbn [scripted nth requests init_world length] in Hreq.
  rewrite Hreq. vm_compute. reflexivity.
Defined.

(** C5, as stated, fails: when the synthesis request is the one that
    fails, the run stops with the error and [conversation.txt] has not
    been written, although the seed and two debate turns exist. *)
Lemma synthesis_failure_loses_transcript :
  let run :=
    main (scripted failing_script) char_enc (args_with (lit "gpt-4") 100)
      5 demo_inputs init_world in
  snd run = Raise (OpenAIError (lit "quota exceeded"))
  /\ length (requests (fst run)) = 4%nat
  /\ files (fst run) !! "conversation.txt" = None.
Proof. vm_compute. repeat split. Qed.

(** C5, amended: the two text files are written between the synthesis call
    and the report call.  When the report call fails, [conversation.txt]
    holds the header (problem, additional information, seed) followed by
    every message of the transcript, and [synthesis.txt] holds the
    synthesis; when the synthesis call fails, no file has been touched. *)
Theorem export_survives_report_failure_only
    (service : nat -> Request -> Response) (enc : text -> list Z)
    (args : Args) (problem additional seed : text) (messages : list text)
    (w : World) (c : Z) :
  let run :=
    synthesis_stage service enc args (Some c) problem additional seed
      messages w in
  (forall r o e,
      service (length (requests w))
        (synthesis_request args enc c problem additional messages)
      = Choices r o ->
      service (S (length (requests w))) (report_request args enc c (strip r))
      = ServiceError e ->
      snd run = Raise (OpenAIError e)
      /\ files (fst run) !! "conversation.txt"
         = Some (file_header problem additional seed
                 ++ flatten_loop 0 messages [])
      /\ files (fst run) !! "synthesis.txt"
         = Some (synthesis_file problem additional seed (strip r)))
  /\ (forall e,
        service (length (requests w))
          (synthesis_request args enc c problem additional messages)
        = ServiceError e ->
        snd run = Raise (OpenAIError e) /\ files (fst run) = files w).
Proof.
  intros run. split.
  - intros r o e H1 H2. unfold run.
    rewrite (synthesis_stage_answered service enc args problem additional
               seed messages c w r o H1), H2.
    cbn [fst snd sent with_files files]. unfold text_files.
    split; [reflexivity |]. split.
    + rewrite lookup_insert_ne by discriminate. apply lookup_insert_eq.
    + apply lookup_insert_eq.
  - intros e H1. unfold run.
    now rewrite (synthesis_stage_first_fails service enc args problem
                   additional seed messages c w e H1).
Qed.

(** C5 amended, on a run whose report request fails. *)
Lemma export_survives_report_failure_only_witness :
  files
    (fst (synthesis_stage (scripted [Choices (lit " final plan ") []])
            char_enc (args_with (lit "gpt-4") 100) (Some 8000)
            (lit "p") [] (lit "s") [lit "s"; lit "a"; lit "b"] init_world))
  !! "conversation.txt"
  = Some (file_header (lit "p") [] (lit "s")
          ++ flatten_loop 0 [lit "s"; lit "a"; lit "b"] []).
Proof.
  destruct (export_survives_report_failure_only
              (scripted [Choices (lit " final plan ") []])
              char_enc (args_with (lit "gpt-4") 100) (lit "p") [] (lit "s")
              [lit "s"; lit "a"; lit "b"] init_world 8000) as [Hreport _].
  exact (proj1 (proj2 (Hreport (lit " final plan ") []
                         (lit "quota exceeded") eq_refl eq_refl))).
Defined.

(** With a bound [context_len] the stage first sends the synthesis
    request. *)
Lemma synthesis_stage_sends_first
    (service : nat -> Request -> Response) (enc : text -> list Z)
    (args : Args) (problem additional seed : text) (messages : list text)
    (c : Z) (w : World) :
  exists rest,
    requests (fst (synthesis_stage service enc args (Some c) problem
                     additional seed messages w))
    = requests w
      ++ synthesis_request args enc c problem additional messages :: rest.
Proof.
  destruct (service (length (requests w))
              (synthesis_request args enc c problem additional messages))
    as [e | r o] eqn:H1.
  - rewrite (synthesis_stage_first_fails service enc args problem additional
               seed messages c w e H1). now exists [].
  - rewrite (synthesis_stage_answered service enc args problem additional
               seed messages c w r o H1).
    exists [report_request args enc c (strip r)].
    destruct (service (S (length (requests w)))
                (report_request args enc c (strip r)));
      cbn [fst requests sent with_files printed]; now rewrite <- app_assoc.
Qed.

(** C7: when the token count of the seed alone reaches [max_len], the loop
    returns the one-message transcript without a pass (no request, no
    console line, whatever the fuel), the run continues with the synthesis
    stage on that transcript, whose flattened form is the single entry
    labelled Agent 1, and with a bound context ceiling the first request
    of the run is the synthesis request built from it. *)
Theorem seed_over_budget_skips_debate
    (service : nat -> Request -> Response) (enc : text -> list Z)
    (args : Args) (fuel : nat) (context_len : option Z)
    (problem additional seed : text) (w : World) :
  max_len args <= compute_total_tokens [seed] enc ->
  let w0 := printed w session_banner in
  let run :=
    brainstorm service enc args fuel context_len problem additional seed w in
  debating service enc args fuel
    (brainstorming_prompt problem (additional_field additional)) [seed] w0
  = (w0, Ok [seed])
  /\ run = synthesis_stage service enc args context_len problem additional
             seed [seed] w0
  /\ conversation_string_of [seed] = strip (lit "Agent 1: " ++ seed ++ nl ++ nl)
  /\ (forall c, context_len = Some c ->
      exists rest,
        requests (fst run)
        = requests w
          ++ mkRequest (engine args)
               [mkMessage (lit "user")
                  (synthesis_prompt problem (additional_field additional)
                     (strip (lit "Agent 1: " ++ seed ++ nl ++ nl)))]
               (c - len (enc (synthesis_prompt problem
                                (additional_field additional)
                                (strip (lit "Agent 1: " ++ seed ++ nl ++ nl)))))
               (temp args) (top_p args)
             :: rest).
Proof.
  intros Hseed w0 run.
  assert (Hloop : debating service enc args fuel
                    (brainstorming_prompt problem (additional_field additional))
                    [seed] w0 = (w0, Ok [seed])).
  { now apply debating_budget_spent. }
  assert (Hrun : run = synthesis_stage service enc args context_len problem
                         additional seed [seed] w0).
  { unfold run, brainstorm, bind at 1 2. cbn [print].
    fold session_banner. fold (printed w session_banner). fold w0.
    now rewrite Hloop. }
  repeat split; [exact Hloop | exact Hrun |].
  intros c ->. rewrite Hrun.
  exact (synthesis_stage_sends_first service enc args problem additional seed
           [seed] c w0).
Qed.

(** C7 on a seed of eleven characters against a budget of three tokens. *)
Lemma seed_over_budget_skips_debate_witness :
  debating (scripted demo_script) char_enc (args_with (lit "gpt-4") 3) 5
    (brainstorming_prompt (lit "p") (additional_field []))
    [lit "add a cache"] (printed init_world session_banner)
  = (printed init_world session_banner, Ok [lit "add a cache"]).
Proof.
  refine (proj1 (seed_over_budget_skips_debate (scripted demo_script) char_enc
                   (args_with (lit "gpt-4") 3) 5 (Some 8000) (lit "p") []
                   (lit "add a cache") init_world _)).
  vm_compute. discriminate.
Defined.

(** ** An unrecognised engine (claim C9) *)

(** With [context_len] unbound the script from the seed on never
    completes, and when the debate returns it raises [NameError] where the
    synthesis request would be sized, after every debate request. *)
Lemma unbound_context_len_raises_late
    (service : nat -> Request -> Response) (enc : text -> list Z)
    (args : Args) (fuel : nat) (problem additional seed : text) (w : World) :
  let run := brainstorm service enc args fuel None problem additional seed w in
  let loop :=
    debating service enc args fuel
      (brainstorming_prompt problem (additional_field additional)) [seed]
      (printed w session_banner) in
  snd run <> Ok tt
  /\ forall messages, snd loop = Ok messages ->
       run = (printed (fst loop) synthesis_banner,
              Raise (NameError "context_len")).
Proof.
  intros run loop.
  assert (Hrun : run = match loop with
                       | (w1, Ok ms) =>
                           synthesis_stage service enc args None problem
                             additional seed ms w1
                       | (w1, Raise e) => (w1, Raise e)
                       | (w1, OutOfFuel) => (w1, OutOfFuel)
                       end) by reflexivity.
  rewrite Hrun. clear Hrun run.
  destruct loop as [w1 [ms | e |]]; cbn [fst snd];
    (split; [| intros messages Hm]); try discriminate.
  apply synthesis_stage_unbound.
Qed.

(** C9 is not what the script does: with the engine [gpt-4-32k], which has
    no context ceiling in the script, the run asks its questions, sends
    three requests (seed, Agent 1, Agent 2) and only then stops with
    [NameError] on [context_len], having written no file. *)
Theorem unknown_engine_fails_after_debate :
  let args := args_with (lit "gpt-4-32k") 100 in
  let run := main (scripted demo_script) char_enc args 5 demo_inputs init_world in
  context_len_of (engine args) = None
  /\ snd run = Raise (NameError "context_len")
  /\ length (requests (fst run)) = 3%nat
  /\ length (stdout (fst run)) = 10%nat
  /\ files (fst run) = ∅.
Proof. vm_compute. repeat split. Qed.

(** ** Labels in the exported files (claim C4) *)

(** The entry written for position [i] is labelled by the parity of [i]
    alone. *)
Lemma agent_entry_label (i : nat) (message : text) :
  agent_entry i message
  = (if Nat.even i then lit "Agent 1: " else lit "Agent 2: ")
    ++ message ++ nl ++ nl.
Proof.
  unfold agent_entry. rewrite mod2_of_nat.
  destruct (Nat.even i); reflexivity.
Qed.

(** The transcript after one answered pass over a seed: the seed is
    labelled Agent 1, the reply to the Agent-1 call Agent 2 and the reply
    to the Agent-2 call Agent 1. *)
Lemma flatten_one_pass (seed agent1_response agent2_response : text) :
  flatten_loop 0 (([seed] ++ [agent1_response]) ++ [agent2_response]) []
  = lit "Agent 1: " ++ seed ++ nl ++ nl
    ++ lit "Agent 2: " ++ agent1_response ++ nl ++ nl
    ++ lit "Agent 1: " ++ agent2_response ++ nl ++ nl.
Proof.
  cbn [app flatten_loop]. rewrite !agent_entry_label. cbn [Nat.even].
  now rewrite <- !app_assoc.
Qed.

(** C4 is not what the script does: in the scenario run, the reply to the
    [starter="user"] call is printed on the console as [Agent 1: first
    reply], but in [conversation.txt] and in the synthesis instruction it
    is labelled [Agent 2:], and the reply to the [starter="assistant"]
    call, printed as [Agent 2: ok], is labelled [Agent 1:]. *)
Theorem export_labels_are_shifted :
  let args := args_with (lit "gpt-4") 100 in
  let run := main (scripted demo_script) char_enc args 5 demo_inputs init_world in
  let flat :=
    lit "Agent 1: add a cache" ++ nl ++ nl
    ++ lit "Agent 2: first reply" ++ nl ++ nl
    ++ lit "Agent 1: ok" in
  snd run = Ok tt
  /\ (requests (fst run) !! 1%nat
      = Some (chat_request [lit "add a cache"]
                (brainstorming_prompt (lit "reduce server latency") [])
                (lit "user") 89 (lit "gpt-4") (temp args) (top_p args))
      /\ stdout (fst run) !! 7%nat = Some (agent1_line (lit "first reply") ++ nl))
  /\ (requests (fst run) !! 2%nat
      = Some (chat_request [lit "add a cache"; lit "first reply"]
                (brainstorming_prompt (lit "reduce server latency") [])
                (lit "assistant") 89 (lit "gpt-4") (temp args) (top_p args))
      /\ stdout (fst run) !! 8%nat = Some (agent2_line (lit "ok") ++ nl))
  /\ files (fst run) !! "conversation.txt"
     = Some (lit "Problem: reduce server latency" ++ nl ++ nl
             ++ lit "Additional Information: " ++ nl ++ nl
             ++ lit "Proposed Solution: add a cache" ++ nl ++ nl
             ++ flat ++ nl ++ nl)
  /\ (content <$> (requests (fst run) !! 3%nat ≫= fun r => req_messages r !! 0%nat))
     = Some (synthesis_prompt (lit "reduce server latency") [] flat).
Proof. vm_compute. repeat split. Qed.

(** ** Reading the conversation file back (claim C10) *)

Lemma split_lines_cons (s : text) : exists l ls, split_lines s = l :: ls.
Proof.
  destruct s as [| c s']; cbn; [now eexists _, _ |].
  destruct (c =? 10)%N; [now eexists _, _ |].
  destruct (split_lines s'); now eexists _, _.
Qed.

(** Splitting distributes over a line break. *)
Lemma split_lines_break (a rest : text) :
  split_lines (a ++ 10%N :: rest) = split_lines a ++ split_lines rest.
Proof.
  induction a as [| c a IH]; [reflexivity |].
  cbn [app split_lines]. rewrite IH.
  destruct (c =? 10)%N; [reflexivity |].
  destruct (split_lines_cons a) as (l & ls & ->). reflexivity.
Qed.

(** A prefix without a line break stays on the first line. *)
Lemma split_lines_prefix (a s : text) :
  10%N ∉ a ->
  split_lines (a ++ s)
  = match split_lines s with
    | l :: ls => (a ++ l) :: ls
    | [] => [a]
    end.
Proof.
  induction a as [| c a IH]; intros Ha.
  - cbn [app]. now destruct (split_lines_cons s) as (l & ls & ->).
  - apply not_elem_of_cons in Ha. destruct Ha as [Hc Ha].
    cbn [app split_lines]. rewrite (IH Ha).
    destruct (N.eqb_spec c 10) as [-> | _]; [congruence |].
    now destruct (split_lines_cons s) as (l & ls & ->).
Qed.

(** Joining the lines gives the text back. *)
Lemma join_split_lines (s : text) : join nl (split_lines s) = s.
Proof.
  induction s as [| c s IH]; [reflexivity |].
  cbn [split_lines].
  destruct (split_lines_cons s) as (l & ls & Hs). rewrite Hs in *.
  destruct (N.eqb_spec c 10) as [-> | _].
  - change (join nl ([] :: l :: ls)) with (nl ++ join nl (l :: ls)).
    now rewrite IH.
  - destruct ls as [| l' ls].
    + cbn in *. now rewrite IH.
    + change (join nl ((c :: l) :: l' :: ls))
        with (c :: (l ++ nl ++ join nl (l' :: ls))).
      change (join nl (l :: l' :: ls)) with (l ++ nl ++ join nl (l' :: ls))
        in IH.
      now rewrite IH.
Qed.

(** The last line of a text that does not end with a line break is not
    blank, unless the text is empty. *)
Lemma last_line_not_blank (s : text) :
  s <> [] -> last s <> Some 10%N ->
  exists l, last (split_lines s) = Some l /\ l <> [].
Proof.
  induction s as [| c s IH]; [congruence |]. intros _ Hend.
  destruct s as [| c' s].
  - cbn in *. destruct (N.eqb_spec c 10) as [-> | _]; [congruence |].
    now exists [c].
  - destruct IH as (l & Hl & Hne); [congruence | exact Hend |].
    remember (c' :: s) as s' eqn:Hs'.
    cbn [split_lines].
    destruct (split_lines_cons s') as (l0 & ls0 & Hsplit).
    rewrite Hsplit in *.
    destruct (c =? 10)%N.
    + exists l. split; [exact Hl | exact Hne].
    + destruct ls0 as [| l1 ls0].
      * cbn in *. now exists (c :: l0).
      * exists l. split; [exact Hl | exact Hne].
Qed.

Lemma drop_blank_tail_kept (lines : list text) (l : text) :
  last lines = Some l -> l <> [] -> drop_blank_tail lines = lines.
Proof.
  induction lines as [| l0 lines IH]; [discriminate |]. intros Hl Hne.
  destruct lines as [| l1 lines].
  - cbn in *. injection Hl as ->. now rewrite decide_False.
  - change (drop_blank_tail (l0 :: l1 :: lines))
      with (match drop_blank_tail (l1 :: lines) with
            | [] => if decide (l0 = []) then [] else [l0]
            | kept => l0 :: kept
            end).
    rewrite (IH Hl Hne). reflexivity.
Qed.

Lemma drop_blank_tail_blanks (blanks : list text) :
  Forall (eq []) blanks -> drop_blank_tail blanks = [].
Proof.
  induction 1 as [| b blanks <- _ IH]; [reflexivity |].
  cbn [drop_blank_tail]. rewrite IH. now rewrite decide_True.
Qed.

Lemma drop_blank_tail_app_blanks (lines blanks : list text) :
  Forall (eq []) blanks ->
  drop_blank_tail (lines ++ blanks) = drop_blank_tail lines.
Proof.
  intros Hb. induction lines as [| l lines IH].
  - cbn [app]. now rewrite drop_blank_tail_blanks.
  - cbn [app drop_blank_tail]. now rewrite IH.
Qed.

(** What the reader makes of the lines of a message followed by blank
    lines. *)
Lemma message_read_back (m : text) (blanks : list text) :
  last m <> Some 10%N -> Forall (eq []) blanks ->
  join nl (drop_blank_tail (split_lines m ++ blanks)) = m.
Proof.
  intros Hend Hb. rewrite drop_blank_tail_app_blanks by exact Hb.
  destruct m as [| c m]; [reflexivity |].
  destruct (last_line_not_blank (c :: m)) as (l & Hl & Hne);
    [congruence | exact Hend |].
  rewrite (drop_blank_tail_kept _ l Hl Hne). apply join_split_lines.
Qed.

(** Unlabelled lines are passed over by the grouping. *)
Lemma group_entries_unlabelled (lines rest : list text) :
  Forall unlabelled lines ->
  group_entries (lines ++ rest)
  = (lines ++ fst (group_entries rest), snd (group_entries rest)).
Proof.
  induction 1 as [| l lines Hl _ IH].
  - cbn [app]. now destruct (group_entries rest).
  - cbn [app group_entries]. rewrite IH. cbn. unfold unlabelled in Hl.
    now rewrite Hl.
Qed.

Lemma blank_unlabelled : unlabelled [].
Proof. reflexivity. Qed.

(** The lines of one exported entry followed by the rest of the file. *)
Lemma split_lines_entry (i : nat) (m rest : text) :
  exists label,
    (label = lit "Agent 1: " \/ label = lit "Agent 2: ")
    /\ split_lines (agent_entry i m ++ rest)
       = match split_lines m with
         | l :: ls => (label ++ l) :: ls ++ [] :: split_lines rest
         | [] => []
         end.
Proof.
  exists (if Nat.even i then lit "Agent 1: " else lit "Agent 2: ").
  split; [destruct (Nat.even i); auto |].
  rewrite agent_entry_label.
  set (label := if Nat.even i then lit "Agent 1: " else lit "Agent 2: ").
  replace ((label ++ m ++ nl ++ nl) ++ rest)
    with ((label ++ m) ++ 10%N :: [] ++ 10%N :: rest)
    by (now rewrite <- !app_assoc).
  rewrite !split_lines_break.
  assert (Hl : 10%N ∉ label).
  { unfold label. destruct (Nat.even i); vm_compute;
      intros H; repeat (inversion_clear H as [| ? ? ? H']; rename H' into H). }
  rewrite (split_lines_prefix label m Hl).
  destruct (split_lines_cons m) as (l & ls & ->). reflexivity.
Qed.

(** Reading the body of the file: the entries are the messages, and only
    blank lines are left over in front. *)
Lemma read_body (messages : list text) :
  forall i,
    Forall delimited messages ->
    Forall (eq []) (fst (group_entries (split_lines (flatten_loop i messages []))))
    /\ (fun entry => join nl (drop_blank_tail entry))
       <$> snd (group_entries (split_lines (flatten_loop i messages [])))
       = messages.
Proof.
  induction messages as [| m messages IH]; intros i Hall.
  - cbn. split; [repeat constructor | reflexivity].
  - inversion_clear Hall as [| ? ? [Hcont Hend] Hrest].
    cbn [flatten_loop]. rewrite flatten_loop_acc. cbn [app].
    destruct (split_lines_entry i m (flatten_loop (S i) messages []))
      as (label & Hlabel & ->).
    destruct (IH (S i) Hrest) as [Hblank Hread].
    pose proof (message_read_back m
                  ([] :: fst (group_entries
                                (split_lines (flatten_loop (S i) messages []))))
                  Hend (Forall_cons_2 _ _ _ eq_refl Hblank)) as Hm.
    destruct (split_lines m) as [| l ls] eqn:Hsplit;
      [destruct (split_lines_cons m) as (? & ? & ?); congruence |].
    cbn [tail] in Hcont.
    cbn [group_entries].
    change (ls ++ [] :: split_lines (flatten_loop (S i) messages []))
      with (ls ++ [[]] ++ split_lines (flatten_loop (S i) messages [])).
    rewrite app_assoc, group_entries_unlabelled
      by (apply Forall_app; split;
          [exact Hcont | constructor; [exact blank_unlabelled | constructor]]).
    assert (Hlab : labelled_content (label ++ l) = Some l).
    { destruct Hlabel as [-> | ->]; reflexivity. }
    rewrite Hlab. cbn [fst snd fmap list_fmap]. split; [constructor |].
    rewrite <- app_assoc. cbn [app] in *. rewrite Hm.
    f_equal. exact Hread.
Qed.

(** A blank line between two parts of the file. *)
Lemma split_lines_blank_line (a rest : text) :
  split_lines (a ++ nl ++ nl ++ rest)
  = split_lines a ++ [] :: split_lines rest.
Proof.
  change (a ++ nl ++ nl ++ rest) with (a ++ 10%N :: 10%N :: rest).
  now rewrite split_lines_break.
Qed.

(** A header field contributes no labelled line when its own continuation
    lines carry no label. *)
Lemma header_field_unlabelled (name field : text) :
  10%N ∉ name ->
  (forall l, unlabelled (name ++ l)) ->
  Forall unlabelled (tail (split_lines field)) ->
  Forall unlabelled (split_lines (name ++ field)).
Proof.
  intros Hname Hfirst Hcont. rewrite (split_lines_prefix name field Hname).
  destruct (split_lines field) as [| l ls].
  - constructor; [| constructor].
    specialize (Hfirst []). now rewrite app_nil_r in Hfirst.
  - constructor; [apply Hfirst | exact Hcont].
Qed.

Lemma literal_one_line (s : string) :
  forallb (fun c => negb (c =? 10)%N) (lit s) = true -> 10%N ∉ lit s.
Proof.
  induction (lit s) as [| c l IH]; intros H.
  - apply not_elem_of_nil.
  - cbn in H. apply andb_prop in H. destruct H as [Hc Hl].
    apply not_elem_of_cons. split; [| now apply IH].
    intros <-. discriminate.
Qed.

(** The lines of the header carry no label. *)
Lemma header_unlabelled (problem additional seed : text) :
  Forall unlabelled (tail (split_lines problem)) ->
  Forall unlabelled (tail (split_lines additional)) ->
  Forall unlabelled (tail (split_lines seed)) ->
  exists header,
    Forall unlabelled header
    /\ forall body,
         split_lines (file_header problem additional seed ++ body)
         = header ++ split_lines body.
Proof.
  intros Hp Ha Hs.
  exists (split_lines (lit "Problem: " ++ problem)
          ++ [] :: split_lines (lit "Additional Information: " ++ additional)
          ++ [] :: split_lines (lit "Proposed Solution: " ++ seed) ++ [[]]).
  split.
  - assert (Hfield : forall (name : string) (field : text),
               forallb (fun c => negb (c =? 10)%N) (lit name) = true ->
               (forall l, unlabelled (lit name ++ l)) ->
               Forall unlabelled (tail (split_lines field)) ->
               Forall unlabelled (split_lines (lit name ++ field))).
    { intros name field Hname Hfirst Hcont.
      apply header_field_unlabelled;
        [now apply literal_one_line | exact Hfirst | exact Hcont]. }
    apply Forall_app; split;
      [apply Hfield; [reflexivity | intros l; reflexivity | exact Hp] |].
    constructor; [exact blank_unlabelled |].
    apply Forall_app; split;
      [apply Hfield; [reflexivity | intros l; reflexivity | exact Ha] |].
    constructor; [exact blank_unlabelled |].
    apply Forall_app; split;
      [apply Hfield; [reflexivity | intros l; reflexivity | exact Hs] |].
    constructor; [exact blank_unlabelled | constructor].
  - intros body. unfold file_header.
    replace ((lit "Problem: " ++ problem ++ nl ++ nl
              ++ lit "Additional Information: " ++ additional ++ nl ++ nl
              ++ lit "Proposed Solution: " ++ seed ++ nl ++ nl) ++ body)
      with ((lit "Problem: " ++ problem) ++ nl ++ nl
            ++ (lit "Additional Information: " ++ additional) ++ nl ++ nl
            ++ (lit "Proposed Solution: " ++ seed) ++ nl ++ nl ++ body)
      by (now rewrite <- !app_assoc).
    rewrite !split_lines_blank_line.
    repeat (rewrite <- app_assoc; cbn [app]). reflexivity.
Qed.

(** C10, as stated, fails: two debates over the same seed end with
    different transcripts whose conversation files are the same text, so
    no reader can give both back; the reader of this development returns
    the five-message transcript for both. *)
Lemma quoted_labels_break_round_trip :
  let args := args_with (lit "gpt-4") 1000 in
  let debate script :=
    snd (debating (scripted script) char_enc args 5
           (brainstorming_prompt (lit "p") []) [lit "s"] init_world) in
  debate quoting_script = Ok quoting_transcript
  /\ debate plain_script = Ok plain_transcript
  /\ quoting_transcript <> plain_transcript
  /\ conversation_file (lit "p") [] (lit "s") quoting_transcript
     = conversation_file (lit "p") [] (lit "s") plain_transcript
  /\ parse_conversation
       (conversation_file (lit "p") [] (lit "s") quoting_transcript)
     <> quoting_transcript.
Proof.
  intros args debate. split; [vm_compute; reflexivity |].
  split; [vm_compute; reflexivity |].
  split; [intros H; apply (f_equal length) in H; discriminate H |].
  split; [vm_compute; reflexivity |].
  intros H. apply (f_equal length) in H. vm_compute in H. discriminate H.
Qed.

(** C10, amended: when no line after the first of the problem, of the
    additional information, of the seed and of any message starts with
    [Agent 1: ] or [Agent 2: ], and no message ends with a line break,
    reading the exported conversation file gives back the messages of the
    transcript in order. *)
Theorem parse_recovers_delimited_transcript
    (problem additional seed : text) (messages : list text) :
  Forall unlabelled (tail (split_lines problem)) ->
  Forall unlabelled (tail (split_lines additional)) ->
  Forall unlabelled (tail (split_lines seed)) ->
  Forall delimited messages ->
  parse_conversation (conversation_file problem additional seed messages)
  = messages.
Proof.
  intros Hp Ha Hs Hm.
  destruct (header_unlabelled problem additional seed Hp Ha Hs)
    as (header & Hheader & Hsplit).
  unfold parse_conversation, conversation_file.
  rewrite Hsplit, (group_entries_unlabelled header _ Hheader). cbn [snd].
  exact (proj2 (read_body messages 0 Hm)).
Qed.

(** C10 amended, on a transcript with a two-paragraph reply. *)
Lemma parse_recovers_delimited_transcript_witness :
  parse_conversation
    (conversation_file (lit "reduce server latency") [] (lit "add a cache")
       [lit "add a cache"; lit "line one" ++ nl ++ nl ++ lit "para two";
        lit "ok"])
  = [lit "add a cache"; lit "line one" ++ nl ++ nl ++ lit "para two";
     lit "ok"].
Proof.
  apply parse_recovers_delimited_transcript.
  - vm_compute. constructor.
  - vm_compute. constructor.
  - vm_compute. constructor.
  - repeat (apply Forall_cons; split); try apply Forall_nil_2;
      (split; [vm_compute; repeat constructor | vm_compute; discriminate]).
Defined.

(** * Further properties of the script *)

(** ** Stripped replies *)

Lemma lstrip_head (s : text) (c : N) :
  head (lstrip s) = Some c -> py_isspace c = false.
Proof.
  induction s as [| d s IH]; [discriminate |].
  cbn [lstrip]. destruct (py_isspace d) eqn:Hd; [exact IH |].
  cbn. now intros [= <-].
Qed.

Lemma lstrip_suffix (s : text) : exists ws, s = ws ++ lstrip s.
Proof.
  induction s as [| d s [ws IH]]; [now exists [] |].
  cbn [lstrip]. destruct (py_isspace d).
  - exists (d :: ws). cbn. now rewrite <- IH.
  - now exists [].
Qed.

Lemma last_rev {A} (l : list A) : last (rev l) = head l.
Proof. destruct l as [| a l]; [reflexivity |]. cbn [rev]. apply last_snoc. Qed.

Lemma rstrip_prefix (s : text) : exists ws, s = rstrip s ++ ws.
Proof.
  unfold rstrip. destruct (lstrip_suffix (rev s)) as [ws Hws].
  exists (rev ws). rewrite <- rev_app_distr, <- Hws. now rewrite rev_involutive.
Qed.

Lemma rstrip_last (s : text) (c : N) :
  last (rstrip s) = Some c -> py_isspace c = false.
Proof. unfold rstrip. rewrite last_rev. apply lstrip_head. Qed.

Lemma rstrip_head (s : text) (c : N) :
  head (rstrip s) = Some c -> head s = Some c.
Proof.
  destruct (rstrip_prefix s) as [ws Hws]. intros Hc. rewrite Hws.
  destruct (rstrip s); [discriminate | exact Hc].
Qed.

(** What [strip] returns has no white space at either end. *)
Lemma strip_stripped (s : text) : stripped (strip s) = true.
Proof.
  unfold stripped, strip. apply andb_true_intro. split.
  - destruct (head (rstrip (lstrip s))) as [c |] eqn:Hc; [| reflexivity].
    apply rstrip_head, lstrip_head in Hc. now rewrite Hc.
  - destruct (last (rstrip (lstrip s))) as [c |] eqn:Hc; [| reflexivity].
    apply rstrip_last in Hc. now rewrite Hc.
Qed.

(** ** Every outcome of one pass *)

Lemma iteration_cases
    (service : nat -> Request -> Response) (enc : text -> list Z)
    (args : Args) (active_prompt : text) (messages : list text) (w : World) :
  let req1 := agent1_request args enc active_prompt messages in
  let req2 := agent2_request args enc active_prompt messages in
  let run := iteration service enc args active_prompt messages w in
  (exists e, run = (sent w req1, Raise (OpenAIError e)))
  \/ (exists r1 e,
        run = (sent (printed (sent w req1) (agent1_line (strip r1)))
                 (req2 (strip r1)),
               Raise (OpenAIError e)))
  \/ (exists r1 r2,
        run = (after_iteration w req1 (req2 (strip r1)) (strip r1) (strip r2),
               Ok ((messages ++ [strip r1]) ++ [strip r2],
                   len (strip r2) <? 50))).
Proof.
  intros req1 req2 run. unfold run, req1, req2.
  destruct (service (length (requests w))
              (agent1_request args enc active_prompt messages))
    as [e | r1 o1] eqn:H1.
  - left. exists e. now apply iteration_first_fails.
  - destruct (service (S (length (requests w)))
                (agent2_request args enc active_prompt messages (strip r1)))
      as [e | r2 o2] eqn:H2.
    + right. left. exists r1, e. now apply iteration_second_fails with o1.
    + right. right. exists r1, r2. now apply iteration_answered with o1 o2.
Qed.

(** ** Invariants of the debate *)

Section DebateInvariant.

Variable service : nat -> Request -> Response.
Variable enc : text -> list Z.
Variable args : Args.
Variable active_prompt : text.

(** A property of transcripts kept by every pass, and a property of
    requests that holds for both requests of a pass entered with it. *)
Variable Inv : list text -> Prop.
Variable P : Request -> Prop.

Hypothesis pass_keeps :
  forall messages r1 r2,
    Inv messages -> Inv ((messages ++ [strip r1]) ++ [strip r2]).

Hypothesis pass_requests :
  forall messages r1,
    Inv messages ->
    compute_total_tokens messages enc < max_len args ->
    P (agent1_request args enc active_prompt messages)
    /\ P (agent2_request args enc active_prompt messages (strip r1)).

Lemma debating_invariant (fuel : nat) :
  forall (messages : list text) (w : World),
    Inv messages ->
    let run := debating service enc args fuel active_prompt messages w in
    (exists rest, requests (fst run) = requests w ++ rest /\ Forall P rest)
    /\ files (fst run) = files w
    /\ (forall out, snd run = Ok out -> Inv out).
Proof.
  induction fuel as [| fuel IH]; intros messages w Hinv run; unfold run.
  - destruct (Z.lt_ge_cases (compute_total_tokens messages enc) (max_len args))
      as [Hb | Hb].
    + rewrite debating_no_fuel by exact Hb. cbn [fst snd].
      repeat split; [exists []; now rewrite app_nil_r | discriminate].
    + rewrite debating_budget_spent by exact Hb. cbn [fst snd].
      repeat split; [exists []; now rewrite app_nil_r |].
      now intros out [= <-].
  - destruct (Z.lt_ge_cases (compute_total_tokens messages enc) (max_len args))
      as [Hb | Hb].
    2:{ rewrite debating_budget_spent by exact Hb. cbn [fst snd].
        repeat split; [exists []; now rewrite app_nil_r |].
        now intros out [= <-]. }
    rewrite debating_enters by exact Hb. unfold bind.
    destruct (iteration_cases service enc args active_prompt messages w)
      as [[e ->] | [(r1 & e & ->) | (r1 & r2 & ->)]]; cbn [fst snd].
    + destruct (pass_requests messages [] Hinv Hb) as [H1 _].
      repeat split; [| discriminate].
      eexists [_]. split; [reflexivity | now repeat constructor].
    + destruct (pass_requests messages r1 Hinv Hb) as [H1 H2].
      repeat split; [| discriminate].
      eexists [_; _]. cbn. rewrite <- app_assoc. split; [reflexivity |].
      now repeat constructor.
    + destruct (pass_requests messages r1 Hinv Hb) as [H1 H2].
      pose proof (pass_keeps messages r1 r2 Hinv) as Hinv'.
      destruct (len (strip r2) <? 50).
      * cbn [fst snd]. repeat split.
        -- eexists [_; _]. cbn. rewrite <- app_assoc.
           split; [reflexivity | now repeat constructor].
        -- now intros out [= <-].
      * destruct (IH ((messages ++ [strip r1]) ++ [strip r2])
                    (after_iteration w
                       (agent1_request args enc active_prompt messages)
                       (agent2_request args enc active_prompt messages (strip r1))
                       (strip r1) (strip r2)) Hinv')
          as ((rest & Hrest & HP) & Hfiles & Hout).
        repeat split.
        -- exists (agent1_request args enc active_prompt messages
                   :: agent2_request args enc active_prompt messages (strip r1)
                   :: rest).
           rewrite Hrest. cbn. rewrite <- !app_assoc.
           split; [reflexivity | now repeat constructor].
        -- rewrite Hfiles. reflexivity.
        -- exact Hout.
Qed.

End DebateInvariant.

(** ** What a chat request contains *)

(** Whatever the starter, the contents of the request are the system
    prompt followed by the history, in order. *)
Lemma chat_loop_contents (starter : text) (h : list text) :
  forall (i : nat) (messages : list Message),
    content <$> chat_loop starter i h messages = (content <$> messages) ++ h.
Proof.
  induction h as [| message rest IH]; intros i messages.
  - cbn. now rewrite app_nil_r.
  - cbn [chat_loop]. rewrite IH.
    destruct (decide _); rewrite fmap_app, <- app_assoc; reflexivity.
Qed.

Lemma chat_request_contents (h : list text) (system_prompt starter : text)
    (max_tokens : Z) (eng : text) (t p : float) :
  content <$> req_messages
                (chat_request h system_prompt starter max_tokens eng t p)
  = system_prompt :: h.
Proof. unfold chat_request. cbn [req_messages]. apply chat_loop_contents. Qed.

(** A starter that is not the text [user] is taken for [assistant]. *)
Lemma chat_loop_other_starter (starter : text) (h : list text) :
  starter <> lit "user" ->
  forall (i : nat) (messages : list Message),
    chat_loop starter i h messages = chat_loop (lit "assistant") i h messages.
Proof.
  intros Hs. induction h as [| message rest IH]; intros i messages;
    [reflexivity |].
  cbn [chat_loop]. rewrite IH.
  rewrite (decide_False (P := starter = lit "user")) by exact Hs.
  rewrite (decide_False (P := lit "assistant" = lit "user"))
    by exact assistant_is_not_user.
  reflexivity.
Qed.

(** X1: [chat_GPT] compares the starter with [user] only: every other
    starter, known or not, builds the request of the starter
    [assistant]. *)
Theorem chat_request_unknown_starter
    (h : list text) (system_prompt starter : text) (max_tokens : Z)
    (eng : text) (t p : float) :
  starter <> lit "user" ->
  chat_request h system_prompt starter max_tokens eng t p
  = chat_request h system_prompt (lit "assistant") max_tokens eng t p.
Proof.
  intros Hs. unfold chat_request. f_equal.
  now apply chat_loop_other_starter.
Qed.

Lemma chat_request_unknown_starter_witness :
  chat_request [lit "a"; lit "b"] (lit "sys") (lit "system") 7 (lit "gpt-4")
    0.8%float 0.95%float
  = chat_request [lit "a"; lit "b"] (lit "sys") (lit "assistant") 7
      (lit "gpt-4") 0.8%float 0.95%float.
Proof.
  apply chat_request_unknown_starter. discriminate.
Defined.

(** X2: the two agents are sent the same history with the roles swapped:
    at every position the role in the request started by [user] is the
    opposite of the role in the request started by [assistant], and the
    contents are the same. *)
Theorem agents_see_swapped_roles
    (h : list text) (system_prompt : text) (max_tokens : Z) (eng : text)
    (t p : float) (i : nat) (m : text) :
  h !! i = Some m ->
  exists r,
    (r = lit "user" \/ r = lit "assistant")
    /\ req_messages (chat_request h system_prompt (lit "user") max_tokens
                       eng t p) !! S i
       = Some (mkMessage r m)
    /\ req_messages (chat_request h system_prompt (lit "assistant")
                       max_tokens eng t p) !! S i
       = Some (mkMessage (other_role r) m).
Proof.
  intros Hi. exists (role_at (lit "user") i).
  unfold chat_request. cbn [req_messages].
  rewrite !chat_loop_imap by auto.
  split; [unfold role_at; destruct (Nat.even i); auto |].
  split.
  - transitivity (imap (fun j m => mkMessage (role_at (lit "user") (0 + j)) m)
                    h !! i); [reflexivity |].
    now rewrite list_lookup_imap, Hi.
  - transitivity (imap (fun j m => mkMessage (role_at (lit "assistant") (0 + j)) m)
                    h !! i); [reflexivity |].
    rewrite list_lookup_imap, Hi. cbn. unfold role_at.
    destruct (Nat.even i); reflexivity.
Qed.

Lemma agents_see_swapped_roles_witness :
  exists r,
    (r = lit "user" \/ r = lit "assistant")
    /\ req_messages (chat_request [lit "a"; lit "b"] (lit "sys") (lit "user")
                       7 (lit "gpt-4") 0.8%float 0.95%float) !! 2%nat
       = Some (mkMessage r (lit "b"))
    /\ req_messages (chat_request [lit "a"; lit "b"] (lit "sys")
                       (lit "assistant") 7 (lit "gpt-4") 0.8%float
                       0.95%float) !! 2%nat
       = Some (mkMessage (other_role r) (lit "b")).
Proof.
  exact (agents_see_swapped_roles [lit "a"; lit "b"] (lit "sys") 7
           (lit "gpt-4") 0.8%float 0.95%float 1 (lit "b") eq_refl).
Defined.

(** The last message of a request built on a non-empty history. *)
Lemma chat_request_last (h : list text) (m : text)
    (system_prompt starter : text) (max_tokens : Z) (eng : text)
    (t p : float) :
  starter = lit "user" \/ starter = lit "assistant" ->
  last (req_messages
          (chat_request (h ++ [m]) system_prompt starter max_tokens eng t p))
  = Some (mkMessage (role_at starter (length h)) m).
Proof.
  intros Hs. unfold chat_request. cbn [req_messages].
  rewrite chat_loop_imap by exact Hs. rewrite imap_app. cbn [imap app].
  rewrite Nat.add_0_r.
  change (mkMessage (lit "system") system_prompt
          :: imap (fun j m0 => mkMessage (role_at starter (0 + j)) m0) h
             ++ [mkMessage (role_at starter (0 + length h)) m])
    with ((mkMessage (lit "system") system_prompt
           :: imap (fun j m0 => mkMessage (role_at starter (0 + j)) m0) h)
          ++ [mkMessage (role_at starter (length h)) m]).
  apply last_snoc.
Qed.

(** ** Requests of the debate *)

(** X3: every request the debate sends, whatever the outcome of the run,
    asks for at least one token and at most [max_len] tokens, names the
    engine and the sampling parameters of the command line, and starts
    with the one system prompt shared by both agents. *)
Theorem debate_requests_within_budget
    (service : nat -> Request -> Response) (enc : text -> list Z)
    (args : Args) (active_prompt : text) (fuel : nat)
    (messages : list text) (w : World) :
  exists rest,
    requests (fst (debating service enc args fuel active_prompt messages w))
    = requests w ++ rest
    /\ Forall (fun r =>
                 1 <= req_max_tokens r <= max_len args
                 /\ req_model r = engine args
                 /\ req_temperature r = temp args
                 /\ req_top_p r = top_p args
                 /\ head (req_messages r)
                    = Some (mkMessage (lit "system") active_prompt))
         rest.
Proof.
  refine (proj1 (debating_invariant service enc args active_prompt
                   (fun _ => True) _ _ _ fuel messages w I)).
  - auto.
  - intros ms r1 _ Hb.
    assert (Hc : 0 <= compute_total_tokens ms enc)
      by (unfold compute_total_tokens, len; lia).
    unfold agent1_request, agent2_request, chat_request.
    cbn [req_max_tokens req_model req_temperature req_top_p req_messages].
    rewrite !chat_loop_imap by auto. cbn [app head].
    repeat split; lia.
Qed.

(** X4: when the debate starts from a transcript of odd length, as it does
    from the seed alone, the last message of every request it sends has
    the role [user], so each agent is asked to answer its partner, and the
    transcript it returns has odd length again. *)
Theorem debate_requests_end_with_user
    (service : nat -> Request -> Response) (enc : text -> list Z)
    (args : Args) (active_prompt : text) (fuel : nat)
    (messages : list text) (w : World) :
  Nat.odd (length messages) = true ->
  let run := debating service enc args fuel active_prompt messages w in
  (exists rest,
      requests (fst run) = requests w ++ rest
      /\ Forall (fun r => role <$> last (req_messages r) = Some (lit "user"))
           rest)
  /\ forall out, snd run = Ok out -> Nat.odd (length out) = true.
Proof.
  intros Hodd run.
  destruct (debating_invariant service enc args active_prompt
              (fun ms => Nat.odd (length ms) = true)
              (fun r => role <$> last (req_messages r) = Some (lit "user")))
    with (fuel := fuel) (messages := messages) (w := w)
    as (Hreq & _ & Hout); try assumption.
  - intros ms r1 r2 Hms. rewrite !length_app. cbn [length].
    now rewrite !Nat.add_1_r, Nat.odd_succ_succ.
  - intros ms r1 Hms _.
    destruct ms as [| m0 ms0] using rev_ind; [discriminate |]. clear IHms0.
    rewrite length_app in Hms. cbn [length] in Hms.
    rewrite Nat.add_1_r, Nat.odd_succ in Hms.
    unfold agent1_request, agent2_request. split.
    + rewrite chat_request_last by auto. cbn. unfold role_at.
      now rewrite Hms.
    + rewrite chat_request_last by auto. cbn. unfold role_at.
      rewrite length_app. cbn [length].
      now rewrite Nat.add_1_r, Nat.even_succ, <- Nat.negb_even, Hms.
  - split; assumption.
Qed.

Lemma debate_requests_end_with_user_witness :
  Nat.odd (length plain_transcript) = true.
Proof.
  refine (proj2 (debate_requests_end_with_user (scripted plain_script)
                   char_enc (args_with (lit "gpt-4") 1000) (lit "sys") 5
                   [lit "s"] init_world eq_refl) plain_transcript _).
  vm_compute. reflexivity.
Defined.

(** ** The transcript a debate returns *)

(** A returned debate, described by the turns it appended. *)
Lemma debating_anatomy
    (service : nat -> Request -> Response) (enc : text -> list Z)
    (args : Args) (active_prompt : text) (fuel : nat) :
  forall (messages : list text) (w w' : World) (out : list text),
    debating service enc args fuel active_prompt messages w = (w', Ok out) ->
    exists extra,
      out = messages ++ extra
      /\ requests w'
         = requests w ++ debate_requests args enc active_prompt messages extra
      /\ Nat.even (length extra) = true
      /\ Forall (fun m => stripped m = true) extra
      /\ (max_len args <= compute_total_tokens out enc
          \/ exists pre b, out = pre ++ [b] /\ len b < 50).
Proof.
  induction fuel as [| fuel IH]; intros messages w w' out Hrun.
  - destruct (Z.lt_ge_cases (compute_total_tokens messages enc) (max_len args))
      as [Hb | Hb].
    + rewrite debating_no_fuel in Hrun by exact Hb. discriminate.
    + rewrite debating_budget_spent in Hrun by exact Hb.
      injection Hrun as <- <-. exists [].
      rewrite !app_nil_r. repeat split; auto.
  - destruct (Z.lt_ge_cases (compute_total_tokens messages enc) (max_len args))
      as [Hb | Hb].
    2:{ rewrite debating_budget_spent in Hrun by exact Hb.
        injection Hrun as <- <-. exists [].
        rewrite !app_nil_r. repeat split; auto. }
    rewrite debating_enters in Hrun by exact Hb. unfold bind in Hrun.
    destruct (iteration_cases service enc args active_prompt messages w)
      as [[e He] | [(r1 & e & He) | (r1 & r2 & He)]];
      rewrite He in Hrun; cbn [fst snd] in Hrun; try discriminate.
    destruct (Z.ltb_spec (len (strip r2)) 50) as [Hshort | Hlong].
    + injection Hrun as <- <-. exists [strip r1; strip r2].
      rewrite <- app_assoc. cbn [app debate_requests].
      repeat split.
      * cbn. now rewrite <- app_assoc.
      * repeat constructor; apply strip_stripped.
      * right. exists (messages ++ [strip r1]), (strip r2).
        split; [now rewrite <- app_assoc | exact Hshort].
    + destruct (IH _ _ _ _ Hrun) as (extra & -> & Hreq & Heven & Hstr & Hexit).
      exists (strip r1 :: strip r2 :: extra).
      rewrite <- !app_assoc. cbn [app]. repeat split.
      * rewrite Hreq. cbn [debate_requests].
        cbn. now rewrite <- !app_assoc.
      * exact Heven.
      * repeat constructor; try apply strip_stripped. exact Hstr.
      * rewrite <- !app_assoc in Hexit. exact Hexit.
Qed.

(** Two requests for every pair of turns. *)
Lemma debate_requests_length (args : Args) (enc : text -> list Z)
    (active_prompt : text) (extra : list text) :
  (forall ms,
      length (debate_requests args enc active_prompt ms extra)
      = (2 * Nat.div2 (length extra))%nat)
  /\ (forall a ms,
        length (debate_requests args enc active_prompt ms (a :: extra))
        = (2 * Nat.div2 (S (length extra)))%nat).
Proof.
  induction extra as [| b l [IH1 IH2]]; [split; reflexivity |].
  split; [intros ms; apply IH2 |].
  intros a ms. cbn [debate_requests length]. rewrite IH1.
  cbn [Nat.div2]. lia.
Qed.

(** X5: a debate that returns has only appended to the transcript it
    started from: the turns come in pairs, each has no white space at
    either end, and exactly one request was sent per turn. *)
Theorem debate_appends_stripped_pairs
    (service : nat -> Request -> Response) (enc : text -> list Z)
    (args : Args) (active_prompt : text) (fuel : nat)
    (messages : list text) (w w' : World) (out : list text) :
  debating service enc args fuel active_prompt messages w = (w', Ok out) ->
  exists extra,
    out = messages ++ extra
    /\ Nat.even (length extra) = true
    /\ Forall (fun m => stripped m = true) extra
    /\ length (requests w') = (length (requests w) + length extra)%nat.
Proof.
  intros Hrun.
  destruct (debating_anatomy _ _ _ _ _ _ _ _ _ Hrun)
    as (extra & Hout & Hreq & Heven & Hstr & _).
  exists extra. repeat split; try assumption.
  rewrite Hreq, length_app. f_equal.
  rewrite (proj1 (debate_requests_length args enc active_prompt extra)).
  apply Nat.even_spec in Heven. destruct Heven as [k ->].
  now rewrite Nat.div2_double.
Qed.

Lemma debate_appends_stripped_pairs_witness :
  exists extra,
    plain_transcript = [lit "s"] ++ extra
    /\ Nat.even (length extra) = true
    /\ Forall (fun m => stripped m = true) extra
    /\ length
         (requests
            (fst (debating (scripted plain_script) char_enc
                    (args_with (lit "gpt-4") 1000) 5 (lit "sys") [lit "s"]
                    init_world)))
       = (length (requests init_world) + length extra)%nat.
Proof.
  refine (debate_appends_stripped_pairs (scripted plain_script) char_enc
            (args_with (lit "gpt-4") 1000) (lit "sys") 5 [lit "s"]
            init_world _ plain_transcript _).
  vm_compute. reflexivity.
Defined.

(** X6: a debate returns for one of two reasons only: the token count of
    the transcript has reached [max_len], or the last turn has fewer than
    50 characters. *)
Theorem debate_exit_condition
    (service : nat -> Request -> Response) (enc : text -> list Z)
    (args : Args) (active_prompt : text) (fuel : nat)
    (messages : list text) (w w' : World) (out : list text) :
  debating service enc args fuel active_prompt messages w = (w', Ok out) ->
  max_len args <= compute_total_tokens out enc
  \/ exists pre b, out = pre ++ [b] /\ Z.of_nat (length b) < 50.
Proof.
  intros Hrun.
  destruct (debating_anatomy _ _ _ _ _ _ _ _ _ Hrun)
    as (extra & _ & _ & _ & _ & Hexit).
  exact Hexit.
Qed.

Lemma debate_exit_condition_witness :
  1000 <= compute_total_tokens plain_transcript char_enc
  \/ exists pre b, plain_transcript = pre ++ [b] /\ Z.of_nat (length b) < 50.
Proof.
  refine (debate_exit_condition (scripted plain_script) char_enc
            (args_with (lit "gpt-4") 1000) (lit "sys") 5 [lit "s"]
            init_world _ plain_transcript _).
  vm_compute. reflexivity.
Defined.

(** The request at position [j] of a debate carries the transcript as it
    stood after [j] appended turns. *)
Lemma debate_requests_history (args : Args) (enc : text -> list Z)
    (active_prompt : text) (extra : list text) :
  (forall messages j r,
      debate_requests args enc active_prompt messages extra !! j = Some r ->
      content <$> req_messages r = active_prompt :: messages ++ take j extra)
  /\ (forall a messages j r,
        debate_requests args enc active_prompt messages (a :: extra) !! j
        = Some r ->
        content <$> req_messages r
        = active_prompt :: messages ++ take j (a :: extra)).
Proof.
  induction extra as [| b extra [IH1 IH2]].
  - split; [intros messages j r H | intros a messages j r H];
      cbn in H; now rewrite lookup_nil in H.
  - split; [intros messages j r; apply IH2 |].
    intros a messages j r H. cbn [debate_requests] in H.
    destruct j as [| [| j]]; cbn in H.
    + injection H as <-. unfold agent1_request.
      rewrite chat_request_contents. cbn [take]. now rewrite app_nil_r.
    + injection H as <-. unfold agent2_request.
      now rewrite chat_request_contents.
    + rewrite (IH1 _ _ _ H). cbn [take]. now rewrite <- !app_assoc.
Qed.

(** X7: in a debate that returns, the request number [j] carries, after
    the system prompt, exactly the first messages of the final transcript:
    the initial ones and the [j] turns appended before it.  Every call
    sees the whole conversation so far, in order. *)
Theorem debate_requests_carry_transcript
    (service : nat -> Request -> Response) (enc : text -> list Z)
    (args : Args) (active_prompt : text) (fuel : nat)
    (messages : list text) (w w' : World) (out : list text) :
  debating service enc args fuel active_prompt messages w = (w', Ok out) ->
  forall j r,
    requests w' !! (length (requests w) + j)%nat = Some r ->
    content <$> req_messages r
    = active_prompt :: take (length messages + j) out.
Proof.
  intros Hrun j r Hj.
  destruct (debating_anatomy _ _ _ _ _ _ _ _ _ Hrun)
    as (extra & -> & Hreq & _).
  rewrite Hreq, lookup_app_r in Hj by lia.
  replace (length (requests w) + j - length (requests w))%nat with j in Hj
    by lia.
  rewrite (proj1 (debate_requests_history args enc active_prompt extra)
             messages j r Hj).
  now rewrite take_app_add.
Qed.

Lemma debate_requests_carry_transcript_witness :
  let w' :=
    fst (debating (scripted plain_script) char_enc
           (args_with (lit "gpt-4") 1000) 5 (lit "sys") [lit "s"]
           init_world) in
  exists r,
    requests w' !! 2%nat = Some r
    /\ content <$> req_messages r = [lit "sys"; lit "s"; lit "a"; fifty].
Proof.
  intros w'.
  assert (Hr : is_Some (requests w' !! 2%nat)) by (vm_compute; eauto).
  destruct Hr as [r Hr]. exists r. split; [exact Hr |].
  exact (debate_requests_carry_transcript (scripted plain_script) char_enc
           (args_with (lit "gpt-4") 1000) (lit "sys") 5 [lit "s"]
           init_world w' plain_transcript eq_refl 2%nat r Hr).
Defined.

(** ** The token count and message boundaries *)

Lemma join_merge (sep a b : text) (rest : list text) (parts : list text) :
  join sep (parts ++ (a ++ sep ++ b) :: rest)
  = join sep (parts ++ a :: b :: rest).
Proof.
  induction parts as [| p parts IH].
  - cbn [app]. destruct rest as [| q rest]; [reflexivity |].
    change (join sep ((a ++ sep ++ b) :: q :: rest))
      with ((a ++ sep ++ b) ++ sep ++ join sep (q :: rest)).
    change (join sep (a :: b :: q :: rest))
      with (a ++ sep ++ b ++ sep ++ join sep (q :: rest)).
    now rewrite <- !app_assoc.
  - destruct parts as [| p' parts].
    + cbn [app] in *.
      change (join sep (p :: (a ++ sep ++ b) :: rest))
        with (p ++ sep ++ join sep ((a ++ sep ++ b) :: rest)).
      change (join sep (p :: a :: b :: rest))
        with (p ++ sep ++ join sep (a :: b :: rest)).
      now rewrite IH.
    + change (join sep ((p :: p' :: parts) ++ (a ++ sep ++ b) :: rest))
        with (p ++ sep ++ join sep ((p' :: parts) ++ (a ++ sep ++ b) :: rest)).
      change (join sep ((p :: p' :: parts) ++ a :: b :: rest))
        with (p ++ sep ++ join sep ((p' :: parts) ++ a :: b :: rest)).
      now rewrite IH.
Qed.

(** X8: the token count is taken on the messages joined by line breaks, so
    it does not see message boundaries: a transcript and the one in which
    two neighbouring messages are merged into one with a line break
    between them count the same, for every encoder. *)
Theorem token_count_ignores_boundaries
    (enc : text -> list Z) (before after : list text) (a b : text) :
  compute_total_tokens (before ++ (a ++ nl ++ b) :: after) enc
  = compute_total_tokens (before ++ a :: b :: after) enc.
Proof. unfold compute_total_tokens. now rewrite join_merge. Qed.

(** ** The two loops over the transcript *)

Lemma flatten_loop_concat (messages : list text) :
  forall i,
    flatten_loop i messages []
    = concat (imap (fun j m => agent_entry (i + j) m) messages).
Proof.
  induction messages as [| m messages IH]; intros i; [reflexivity |].
  cbn [flatten_loop]. rewrite flatten_loop_acc, IH, imap_cons.
  cbn [concat app]. rewrite Nat.add_0_r. do 2 f_equal.
  apply imap_ext. intros j x _. unfold compose. f_equal. lia.
Qed.

(** X9: the loop that builds the conversation string and the loop that
    writes [conversation.txt] produce the same text: once the synthesis
    request is answered, the file holds the header followed by one entry
    per message, labelled by the parity of its position, and the synthesis
    request carries the [strip()] of that same body. *)
Theorem export_body_is_conversation_string
    (service : nat -> Request -> Response) (enc : text -> list Z)
    (args : Args) (problem additional seed : text) (messages : list text)
    (c : Z) (w : World) (r : text) (o : list text) :
  service (length (requests w))
    (synthesis_request args enc c problem additional messages)
  = Choices r o ->
  let run :=
    synthesis_stage service enc args (Some c) problem additional seed
      messages w in
  let body := concat (imap agent_entry messages) in
  files (fst run) !! "conversation.txt"
  = Some (file_header problem additional seed ++ body)
  /\ (req_messages <$> requests (fst run) !! length (requests w))
     = Some [mkMessage (lit "user")
               (synthesis_prompt problem (additional_field additional)
                  (strip body))].
Proof.
  intros H1 run body.
  assert (Hbody : body = flatten_loop 0 messages [])
    by (unfold body; now rewrite flatten_loop_concat).
  unfold run.
  rewrite (synthesis_stage_answered service enc args problem additional seed
             messages c w r o H1).
  destruct (service (S (length (requests w)))
              (report_request args enc c (strip r)));
    cbn [fst sent with_files printed requests stdout files];
    unfold text_files.
  all: split;
    [ rewrite ?(lookup_insert_ne (M := gmap string)) by discriminate;
      rewrite lookup_insert_eq, Hbody; reflexivity
    | rewrite <- app_assoc, lookup_app_r by lia;
      rewrite Nat.sub_diag, Hbody; reflexivity ].
Qed.

Lemma export_body_is_conversation_string_witness :
  files
    (fst (synthesis_stage (scripted [Choices (lit " final plan ") []])
            char_enc (args_with (lit "gpt-4") 100) (Some 8000)
            (lit "p") [] (lit "s") [lit "s"; lit "a"; lit "b"] init_world))
  !! "conversation.txt"
  = Some (file_header (lit "p") [] (lit "s")
          ++ concat (imap agent_entry [lit "s"; lit "a"; lit "b"])).
Proof.
  exact (proj1 (export_body_is_conversation_string
                  (scripted [Choices (lit " final plan ") []])
                  char_enc (args_with (lit "gpt-4") 100) (lit "p") []
                  (lit "s") [lit "s"; lit "a"; lit "b"] 8000 init_world
                  (lit " final plan ") [] eq_refl)).
Defined.

(** ** The whole run *)

Section WholeRun.

Variable service : nat -> Request -> Response.
Variable enc : text -> list Z.
Variable args : Args.

(** A typed seed is taken as it is, without a request. *)
Lemma seeding_typed (problem additional seed : text) (w : World) :
  seed <> [] ->
  seeding service args problem additional seed w = (w, Ok seed).
Proof. intros Hs. unfold seeding. now rewrite decide_False. Qed.

(** A blank seed costs one request, whose stripped answer is the seed. *)
Lemma seeding_blank (problem additional : text) (w : World) :
  seeding service args problem additional [] w
  = match service (length (requests w))
            (seed_request args problem additional) with
    | ServiceError e =>
        (sent (printed w generating_banner)
           (seed_request args problem additional),
         Raise (OpenAIError e))
    | Choices r _ =>
        (printed (sent (printed w generating_banner)
                    (seed_request args problem additional))
           (seed_line (strip r)),
         Ok (strip r))
    end.
Proof.
  unfold seeding. rewrite decide_True by reflexivity.
  unfold bind, query_GPT, create. cbn [print requests stdout files].
  fold (seed_request args problem additional).
  now destruct (service (length (requests w))
                  (seed_request args problem additional)).
Qed.

Lemma main_unfold (fuel : nat) (typed : Inputs) (w : World) :
  main service enc args fuel typed w
  = (seed <- seeding service args (typed_problem typed)
               (typed_additional typed) (typed_seed typed) ;;
     brainstorm service enc args fuel (context_len_of (engine args))
       (typed_problem typed) (typed_additional typed) seed)
      (after_prompts w).
Proof. reflexivity. Qed.

Lemma brainstorm_unfold (fuel : nat) (context_len : option Z)
    (problem additional seed : text) (w : World) :
  brainstorm service enc args fuel context_len problem additional seed w
  = match debating service enc args fuel
            (brainstorming_prompt problem (additional_field additional))
            [seed] (printed w session_banner) with
    | (w1, Ok messages) =>
        synthesis_stage service enc args context_len problem additional seed
          messages w1
    | (w1, Raise e) => (w1, Raise e)
    | (w1, OutOfFuel) => (w1, OutOfFuel)
    end.
Proof. reflexivity. Qed.

(** Every outcome of the synthesis stage. *)
Lemma synthesis_stage_cases (context_len : option Z)
    (problem additional seed : text) (messages : list text) (w : World) :
  let run :=
    synthesis_stage service enc args context_len problem additional seed
      messages w in
  (snd run <> Ok tt
   /\ (files (fst run) = files w
       \/ exists synthesis,
            files (fst run)
            = text_files (files w) problem additional seed messages
                synthesis))
  \/ (exists c r html,
        context_len = Some c
        /\ snd run = Ok tt
        /\ files (fst run)
           = <["report.html" := html]>
               (text_files (files w) problem additional seed messages
                  (strip r))
        /\ requests (fst run)
           = requests w
             ++ [synthesis_request args enc c problem additional messages;
                 report_request args enc c (strip r)]).
Proof.
  intros run. unfold run. destruct context_len as [c |].
  2:{ left. rewrite synthesis_stage_unbound. cbn.
      split; [discriminate | now left]. }
  destruct (service (length (requests w))
              (synthesis_request args enc c problem additional messages))
    as [e | r o] eqn:H1.
  - left. rewrite (synthesis_stage_first_fails _ _ _ _ _ _ _ _ _ _ H1).
    cbn. split; [discriminate | now left].
  - rewrite (synthesis_stage_answered _ _ _ _ _ _ _ _ _ _ _ H1).
    destruct (service (S (length (requests w)))
                (report_request args enc c (strip r))) as [e | html o'].
    + left. cbn [fst snd sent with_files printed requests stdout files].
      split; [discriminate | right; now exists (strip r)].
    + right. exists c, r, html.
      cbn [fst snd sent with_files printed requests stdout files].
      repeat split. now rewrite <- app_assoc.
Qed.

End WholeRun.

Lemma debating_files
    (service : nat -> Request -> Response) (enc : text -> list Z)
    (args : Args) (active_prompt : text) (fuel : nat)
    (messages : list text) (w : World) :
  files (fst (debating service enc args fuel active_prompt messages w))
  = files w.
Proof.
  refine (proj1 (proj2 (debating_invariant service enc args active_prompt
                          (fun _ => True) (fun _ => True) _ _ fuel messages
                          w I))); auto.
Qed.

(** The files after a run, in every case: untouched, the two text files
    written, or all three written; the last case is the run that returns. *)
Lemma main_files_cases
    (service : nat -> Request -> Response) (enc : text -> list Z)
    (args : Args) (fuel : nat) (typed : Inputs) (w : World) :
  let run := main service enc args fuel typed w in
  let problem := typed_problem typed in
  let additional := typed_additional typed in
  (snd run <> Ok tt
   /\ (files (fst run) = files w
       \/ exists seed messages synthesis,
            files (fst run)
            = text_files (files w) problem additional seed messages
                synthesis))
  \/ (snd run = Ok tt
      /\ exists seed messages synthesis html,
           files (fst run)
           = <["report.html" := html]>
               (text_files (files w) problem additional seed messages
                  synthesis)).
Proof.
  intros run problem additional. unfold run. rewrite main_unfold.
  unfold bind.
  assert (Hb : forall seed w0,
             files w0 = files w ->
             let run := brainstorm service enc args fuel
                          (context_len_of (engine args)) problem additional
                          seed w0 in
             (snd run <> Ok tt
              /\ (files (fst run) = files w
                  \/ exists seed messages synthesis,
                       files (fst run)
                       = text_files (files w) problem additional seed
                           messages synthesis))
             \/ (snd run = Ok tt
                 /\ exists seed messages synthesis html,
                      files (fst run)
                      = <["report.html" := html]>
                          (text_files (files w) problem additional seed
                             messages synthesis))).
  { intros seed w0 Hw0 run0. unfold run0. rewrite brainstorm_unfold.
    pose proof (debating_files service enc args
                  (brainstorming_prompt problem (additional_field additional))
                  fuel [seed] (printed w0 session_banner)) as Hf.
    destruct (debating service enc args fuel
                (brainstorming_prompt problem (additional_field additional))
                [seed] (printed w0 session_banner))
      as [w1 [messages | e |]]; cbn [fst snd files printed] in *.
    - destruct (synthesis_stage_cases service enc args
                  (context_len_of (engine args)) problem additional seed
                  messages w1)
        as [[Hne [Hsame | [synthesis Hsyn]]] | (c & r & html & _ & Hok & Hfiles & _)].
      + left. split; [exact Hne |]. left. now rewrite Hsame, Hf.
      + left. split; [exact Hne |]. right.
        exists seed, messages, synthesis. now rewrite Hsyn, Hf, Hw0.
      + right. split; [exact Hok |].
        exists seed, messages, (strip r), html. now rewrite Hfiles, Hf, Hw0.
    - left. split; [discriminate | left; now rewrite Hf].
    - left. split; [discriminate | left; now rewrite Hf]. }
  destruct (decide (typed_seed typed = [])) as [Hs | Hs].
  - rewrite Hs, seeding_blank.
    destruct (service (length (requests (after_prompts w)))
                (seed_request args (typed_problem typed)
                   (typed_additional typed))) as [e | r o].
    + left. cbn. split; [discriminate | now left].
    + apply Hb. reflexivity.
  - rewrite seeding_typed by exact Hs. apply Hb. reflexivity.
Qed.

(** X10: whatever happens in a run, the only files it can change are
    [conversation.txt], [synthesis.txt] and [report.html]; every other
    file is left as it was. *)
Theorem main_writes_output_files_only
    (service : nat -> Request -> Response) (enc : text -> list Z)
    (args : Args) (fuel : nat) (typed : Inputs) (w : World) (name : string) :
  name ∉ output_files ->
  files (fst (main service enc args fuel typed w)) !! name = files w !! name.
Proof.
  intros Hname. unfold output_files in Hname.
  assert (Hc : name <> "conversation.txt"%string)
    by (intros ->; apply Hname; set_solver).
  assert (Hs : name <> "synthesis.txt"%string)
    by (intros ->; apply Hname; set_solver).
  assert (Hr : name <> "report.html"%string)
    by (intros ->; apply Hname; set_solver).
  destruct (main_files_cases service enc args fuel typed w)
    as [[_ [-> | (seed & ms & syn & ->)]] | [_ (seed & ms & syn & html & ->)]];
    unfold text_files; now rewrite ?lookup_insert_ne by congruence.
Qed.

Lemma main_writes_output_files_only_witness :
  files
    (fst (main (scripted demo_script) char_enc (args_with (lit "gpt-4") 100)
            5 demo_inputs
            (with_files init_world {["notes.txt"%string := lit "keep"]})))
  !! "notes.txt"%string
  = Some (lit "keep").
Proof.
  rewrite (main_writes_output_files_only (scripted demo_script) char_enc
             (args_with (lit "gpt-4") 100) 5 demo_inputs
             (with_files init_world {["notes.txt"%string := lit "keep"]})
             "notes.txt"%string).
  - reflexivity.
  - unfold output_files. intros H.
    repeat (apply elem_of_cons in H; destruct H as [H | H];
            [discriminate H |]).
    now apply elem_of_nil in H.
Defined.

(** X11: a run that stops on an error of the remote service or on the
    [NameError] for [context_len] leaves [report.html] as it was, even
    when it has already rewritten the two text files: all requests and
    the last reading of [context_len] come before the report file is
    opened. *)
Theorem failed_run_keeps_old_report
    (service : nat -> Request -> Response) (enc : text -> list Z)
    (args : Args) (fuel : nat) (typed : Inputs) (w : World) :
  (exists reason,
      snd (main service enc args fuel typed w) = Raise (OpenAIError reason))
  \/ (exists name,
        snd (main service enc args fuel typed w) = Raise (NameError name)) ->
  files (fst (main service enc args fuel typed w)) !! "report.html"
  = files w !! "report.html".
Proof.
  intros Hfail.
  destruct (main_files_cases service enc args fuel typed w)
    as [[_ [-> | (seed & ms & syn & ->)]] | [Hok _]].
  - reflexivity.
  - unfold text_files. now rewrite !lookup_insert_ne by discriminate.
  - rewrite Hok in Hfail. destruct Hfail as [[? H] | [? H]]; discriminate H.
Qed.

Lemma failed_run_keeps_old_report_witness :
  files
    (fst (main (scripted [Choices (lit " add a cache ") [];
                          Choices (lit "first reply") [];
                          Choices (lit " ok ") [];
                          Choices (lit " final plan ") []])
            char_enc (args_with (lit "gpt-4") 100) 5 demo_inputs
            (with_files init_world {["report.html"%string := lit "old"]})))
  !! "report.html"%string
  = Some (lit "old").
Proof.
  rewrite failed_run_keeps_old_report.
  - reflexivity.
  - left. exists (lit "quota exceeded"). vm_compute. reflexivity.
Defined.

(** The turns of a debate that returns are the stripped answers of the
    service: the turn number [j] answers the request number [j]. *)
Lemma debating_replies
    (service : nat -> Request -> Response) (enc : text -> list Z)
    (args : Args) (active_prompt : text) (fuel : nat) :
  forall (messages : list text) (w w' : World) (out : list text),
    debating service enc args fuel active_prompt messages w = (w', Ok out) ->
    forall j m,
      out !! (length messages + j)%nat = Some m ->
      exists req r o,
        requests w' !! (length (requests w) + j)%nat = Some req
        /\ service (length (requests w) + j)%nat req = Choices r o
        /\ m = strip r.
Proof.
  induction fuel as [| fuel IH]; intros messages w w' out Hrun j m Hm.
  - destruct (Z.lt_ge_cases (compute_total_tokens messages enc) (max_len args))
      as [Hb | Hb].
    + rewrite debating_no_fuel in Hrun by exact Hb. discriminate.
    + rewrite debating_budget_spent in Hrun by exact Hb.
      injection Hrun as <- <-.
      rewrite lookup_ge_None_2 in Hm by lia. discriminate.
  - destruct (Z.lt_ge_cases (compute_total_tokens messages enc) (max_len args))
      as [Hb | Hb].
    2:{ rewrite debating_budget_spent in Hrun by exact Hb.
        injection Hrun as <- <-.
        rewrite lookup_ge_None_2 in Hm by lia. discriminate. }
    destruct (service (length (requests w))
                (agent1_request args enc active_prompt messages))
      as [e | r1 o1] eqn:H1.
    { rewrite debating_enters in Hrun by exact Hb. unfold bind in Hrun.
      rewrite (iteration_first_fails _ _ _ _ _ _ _ H1) in Hrun.
      discriminate. }
    destruct (service (S (length (requests w)))
                (agent2_request args enc active_prompt messages (strip r1)))
      as [e | r2 o2] eqn:H2.
    { rewrite debating_enters in Hrun by exact Hb. unfold bind in Hrun.
      rewrite (iteration_second_fails _ _ _ _ _ _ _ _ _ H1 H2) in Hrun.
      discriminate. }
    rewrite (debating_after_answered service enc args active_prompt fuel
               messages w r1 r2 o1 o2 Hb H1 H2) in Hrun.
    set (ms1 := (messages ++ [strip r1]) ++ [strip r2]) in *.
    set (w1 := after_iteration w
                 (agent1_request args enc active_prompt messages)
                 (agent2_request args enc active_prompt messages (strip r1))
                 (strip r1) (strip r2)) in *.
    assert (Hw1 : requests w1
                  = requests w
                    ++ [agent1_request args enc active_prompt messages;
                        agent2_request args enc active_prompt messages
                          (strip r1)])
      by (unfold w1; cbn; now rewrite <- app_assoc).
    assert (Hms1 : ms1 = messages ++ [strip r1; strip r2])
      by (unfold ms1; now rewrite <- app_assoc).
    assert (Hshape : exists extra rest,
               out = ms1 ++ extra /\ requests w' = requests w1 ++ rest
               /\ ((len (strip r2) <? 50) = false ->
                   debating service enc args fuel active_prompt ms1 w1
                   = (w', Ok out))).
    { destruct (len (strip r2) <? 50).
      - injection Hrun as <- <-. exists [], [].
        rewrite !app_nil_r. repeat split. discriminate.
      - destruct (debating_anatomy _ _ _ _ _ _ _ _ _ Hrun)
          as (extra & Hout & Hreq & _).
        eexists extra, _. repeat split; [exact Hout | exact Hreq | ].
        intros _. exact Hrun. }
    destruct Hshape as (extra & rest & Hout & Hreq & Hgo).
    rewrite Hout, Hms1, <- app_assoc in Hm.
    rewrite lookup_app_r in Hm by lia.
    replace (length messages + j - length messages)%nat with j in Hm by lia.
    rewrite Hreq, Hw1, <- app_assoc.
    destruct j as [| [| j]]; cbn in Hm.
    + injection Hm as <-.
      exists (agent1_request args enc active_prompt messages), r1, o1.
      rewrite Nat.add_0_r. repeat split; [| exact H1].
      rewrite lookup_app_r by lia. now rewrite Nat.sub_diag.
    + injection Hm as <-.
      exists (agent2_request args enc active_prompt messages (strip r1)),
        r2, o2.
      rewrite Nat.add_1_r. repeat split; [| exact H2].
      rewrite lookup_app_r by lia.
      now replace (S (length (requests w)) - length (requests w))%nat
        with 1%nat by lia.
    + destruct (len (strip r2) <? 50) eqn:Hlen.
      * injection Hrun as <- <-.
        assert (extra = []) as ->.
        { apply (f_equal length) in Hout. rewrite length_app in Hout.
          destruct extra; [reflexivity | cbn in Hout; lia]. }
        discriminate Hm.
      * destruct (IH ms1 w1 w' out (Hgo eq_refl) j m)
          as (req & r & o & Hreq' & Hans & ->).
        { rewrite Hout, lookup_app_r by lia.
          now replace (length ms1 + j - length ms1)%nat with j by lia. }
        exists req, r, o.
        assert (Hn : (length (requests w1) + j
                      = length (requests w) + S (S j))%nat)
          by (rewrite Hw1, length_app; cbn; lia).
        rewrite Hn in Hreq', Hans. rewrite Hreq, Hw1, <- app_assoc in Hreq'.
        repeat split; assumption.
Qed.

(** A synthesis stage that returns, described by the answers it got. *)
Lemma synthesis_stage_success
    (service : nat -> Request -> Response) (enc : text -> list Z)
    (args : Args) (context_len : option Z) (problem additional seed : text)
    (messages : list text) (w w' : World) :
  synthesis_stage service enc args context_len problem additional seed
    messages w = (w', Ok tt) ->
  exists c r o html o',
    context_len = Some c
    /\ service (length (requests w))
         (synthesis_request args enc c problem additional messages)
       = Choices r o
    /\ service (S (length (requests w))) (report_request args enc c (strip r))
       = Choices html o'
    /\ requests w'
       = requests w
         ++ [synthesis_request args enc c problem additional messages;
             report_request args enc c (strip r)]
    /\ files w'
       = <["report.html" := html]>
           (text_files (files w) problem additional seed messages (strip r)).
Proof.
  destruct context_len as [c |];
    [| rewrite synthesis_stage_unbound; discriminate].
  destruct (service (length (requests w))
              (synthesis_request args enc c problem additional messages))
    as [e | r o] eqn:H1.
  - rewrite (synthesis_stage_first_fails _ _ _ _ _ _ _ _ _ _ H1).
    discriminate.
  - rewrite (synthesis_stage_answered _ _ _ _ _ _ _ _ _ _ _ H1).
    destruct (service (S (length (requests w)))
                (report_request args enc c (strip r)))
      as [e | html o'] eqn:H2; [discriminate |].
    intros [= <-]. exists c, r, o, html, o'.
    cbn [fst snd sent with_files printed requests stdout files].
    repeat split; try assumption. now rewrite <- app_assoc.
Qed.

(** A run from the seed on that returns, described by the answers of the
    service. *)
Lemma brainstorm_success
    (service : nat -> Request -> Response) (enc : text -> list Z)
    (args : Args) (fuel : nat) (context_len : option Z)
    (problem additional seed : text) (w w' : World) :
  brainstorm service enc args fuel context_len problem additional seed w
  = (w', Ok tt) ->
  exists extra c r_syn o_syn html o_html,
    context_len = Some c
    /\ Nat.even (length extra) = true
    /\ requests w'
       = requests w
         ++ debate_requests args enc
              (brainstorming_prompt problem (additional_field additional))
              [seed] extra
         ++ [synthesis_request args enc c problem additional (seed :: extra);
             report_request args enc c (strip r_syn)]
    /\ (forall j m,
          extra !! j = Some m ->
          exists req r o,
            requests w' !! (length (requests w) + j)%nat = Some req
            /\ service (length (requests w) + j)%nat req = Choices r o
            /\ m = strip r)
    /\ service (length (requests w) + length extra)%nat
         (synthesis_request args enc c problem additional (seed :: extra))
       = Choices r_syn o_syn
    /\ service (S (length (requests w) + length extra))
         (report_request args enc c (strip r_syn))
       = Choices html o_html
    /\ files w'
       = <["report.html" := html]>
           (text_files (files w) problem additional seed (seed :: extra)
              (strip r_syn)).
Proof.
  rewrite brainstorm_unfold.
  destruct (debating service enc args fuel
              (brainstorming_prompt problem (additional_field additional))
              [seed] (printed w session_banner))
    as [w1 [messages | e |]] eqn:Hd; try discriminate.
  intros Hs.
  pose proof (debating_files service enc args
                (brainstorming_prompt problem (additional_field additional))
                fuel [seed] (printed w session_banner)) as Hf.
  rewrite Hd in Hf. cbn [fst files printed] in Hf.
  pose proof (debating_replies _ _ _ _ _ _ _ _ _ Hd) as Hrep.
  destruct (debating_anatomy _ _ _ _ _ _ _ _ _ Hd)
    as (extra & -> & Hreq & Heven & _ & _).
  cbn [requests printed] in Hreq, Hrep.
  destruct (synthesis_stage_success _ _ _ _ _ _ _ _ _ _ Hs)
    as (c & r & o & html & o' & -> & H1 & H2 & Hrequests & Hfiles).
  assert (Hlen : length (requests w1)
                 = (length (requests w) + length extra)%nat).
  { rewrite Hreq, length_app.
    rewrite (proj1 (debate_requests_length args enc _ extra)).
    apply Nat.even_spec in Heven. destruct Heven as [k ->].
    now rewrite Nat.div2_double. }
  rewrite Hlen in H1, H2.
  exists extra, c, r, o, html, o'. repeat split; try assumption.
  - rewrite Hrequests, Hreq. now rewrite <- app_assoc.
  - intros j m Hj.
    destruct (Hrep j m Hj) as (req & r' & o'' & Hreq' & Hans & ->).
    exists req, r', o''. repeat split; try assumption.
    rewrite Hrequests. now apply lookup_app_l_Some.
  - now rewrite Hfiles, Hf.
Qed.

(** X12: a run that returns normally is fixed by the answers of the
    service.  The engine has a context ceiling.  The seed is the typed
    one, or, when none was typed, the stripped answer to the one seed
    request.  The requests sent are that seed request if any, then the
    debate requests, then the synthesis request and the report request;
    the debate turns come in pairs and the turn number [j] is the stripped
    answer to the debate request number [j].  [conversation.txt] holds the
    header and one labelled entry per message of that transcript,
    [synthesis.txt] the header and the stripped answer to the synthesis
    request, [report.html] the answer to the report request as it came,
    whatever the files held before. *)
Theorem successful_run_anatomy
    (service : nat -> Request -> Response) (enc : text -> list Z)
    (args : Args) (fuel : nat) (typed : Inputs) (w w' : World) :
  main service enc args fuel typed w = (w', Ok tt) ->
  let problem := typed_problem typed in
  let additional := typed_additional typed in
  let n := length (requests w) in
  exists (seeding_requests : list Request) (seed : text) (extra : list text)
         (c : Z) (r_syn : text) (o_syn : list text) (html : text)
         (o_html : list text),
    context_len_of (engine args) = Some c
    /\ (if decide (typed_seed typed = []) then
          seeding_requests = [seed_request args problem additional]
          /\ exists r o,
               service n (seed_request args problem additional) = Choices r o
               /\ seed = strip r
        else seeding_requests = [] /\ seed = typed_seed typed)
    /\ Nat.even (length extra) = true
    /\ requests w'
       = requests w ++ seeding_requests
         ++ debate_requests args enc
              (brainstorming_prompt problem (additional_field additional))
              [seed] extra
         ++ [synthesis_request args enc c problem additional (seed :: extra);
             report_request args enc c (strip r_syn)]
    /\ (forall j m,
          extra !! j = Some m ->
          exists req r o,
            requests w' !! (n + length seeding_requests + j)%nat = Some req
            /\ service (n + length seeding_requests + j)%nat req = Choices r o
            /\ m = strip r)
    /\ service (n + length seeding_requests + length extra)%nat
         (synthesis_request args enc c problem additional (seed :: extra))
       = Choices r_syn o_syn
    /\ service (S (n + length seeding_requests + length extra))
         (report_request args enc c (strip r_syn))
       = Choices html o_html
    /\ files w' !! "conversation.txt"
       = Some (file_header problem additional seed
               ++ concat (imap agent_entry (seed :: extra)))
    /\ files w' !! "synthesis.txt"
       = Some (file_header problem additional seed
               ++ lit "Synthesis: " ++ strip r_syn ++ nl ++ nl)
    /\ files w' !! "report.html" = Some html.
Proof.
  intros Hrun problem additional n.
  rewrite main_unfold in Hrun. unfold bind in Hrun.
  assert (Hfiles : forall seed extra synthesis html,
             files w'
             = <["report.html" := html]>
                 (text_files (files w) problem additional seed (seed :: extra)
                    synthesis) ->
             files w' !! "conversation.txt"
             = Some (file_header problem additional seed
                     ++ concat (imap agent_entry (seed :: extra)))
             /\ files w' !! "synthesis.txt"
                = Some (file_header problem additional seed
                        ++ lit "Synthesis: " ++ synthesis ++ nl ++ nl)
             /\ files w' !! "report.html" = Some html).
  { intros seed extra synthesis html ->. unfold text_files.
    split; [| split].
    - rewrite !lookup_insert_ne by discriminate.
      rewrite lookup_insert_eq. unfold conversation_file.
      now rewrite (flatten_loop_concat (seed :: extra) 0).
    - rewrite lookup_insert_ne by discriminate.
      now rewrite lookup_insert_eq.
    - now rewrite lookup_insert_eq. }
  destruct (decide (typed_seed typed = [])) as [Hs | Hs].
  - rewrite Hs, seeding_blank in Hrun.
    fold problem additional in Hrun.
    change (length (requests (after_prompts w))) with n in Hrun.
    destruct (service n (seed_request args problem additional))
      as [e | r o] eqn:Hseed; [discriminate |].
    destruct (brainstorm_success _ _ _ _ _ _ _ _ _ _ Hrun)
      as (extra & c & r_syn & o_syn & html & o_html
          & Hc & Heven & Hreq & Hrep & H1 & H2 & Hf).
    cbn [requests printed sent after_prompts files] in Hreq, Hrep, H1, H2, Hf.
    rewrite length_app in Hrep, H1, H2. cbn [length] in Hrep, H1, H2.
    fold n in Hrep, H1, H2.
    destruct (Hfiles (strip r) extra (strip r_syn) html Hf) as (F1 & F2 & F3).
    exists [seed_request args problem additional], (strip r), extra, c,
      r_syn, o_syn, html, o_html.
    cbn [length]. repeat split; try assumption.
    + now exists r, o.
    + rewrite Hreq. now rewrite <- app_assoc.
  - rewrite seeding_typed in Hrun by exact Hs.
    fold problem additional in Hrun.
    destruct (brainstorm_success _ _ _ _ _ _ _ _ _ _ Hrun)
      as (extra & c & r_syn & o_syn & html & o_html
          & Hc & Heven & Hreq & Hrep & H1 & H2 & Hf).
    cbn [requests after_prompts files] in Hreq, Hrep, H1, H2, Hf.
    fold n in Hrep, H1, H2.
    destruct (Hfiles (typed_seed typed) extra (strip r_syn) html Hf)
      as (F1 & F2 & F3).
    exists [], (typed_seed typed), extra, c, r_syn, o_syn, html, o_html.
    cbn [length app]. rewrite Nat.add_0_r.
    repeat split; assumption.
Qed.

Lemma successful_run_anatomy_witness :
  let service := scripted demo_script in
  let args := args_with (lit "gpt-4") 100 in
  let w' := fst (main service char_enc args 5 demo_inputs init_world) in
  let problem := typed_problem demo_inputs in
  let additional := typed_additional demo_inputs in
  let n := length (requests init_world) in
  exists (seeding_requests : list Request) (seed : text) (extra : list text)
         (c : Z) (r_syn : text) (o_syn : list text) (html : text)
         (o_html : list text),
    context_len_of (engine args) = Some c
    /\ (if decide (typed_seed demo_inputs = []) then
          seeding_requests = [seed_request args problem additional]
          /\ exists r o,
               service n (seed_request args problem additional) = Choices r o
               /\ seed = strip r
        else seeding_requests = [] /\ seed = typed_seed demo_inputs)
    /\ Nat.even (length extra) = true
    /\ requests w'
       = requests init_world ++ seeding_requests
         ++ debate_requests args char_enc
              (brainstorming_prompt problem (additional_field additional))
              [seed] extra
         ++ [synthesis_request args char_enc c problem additional
               (seed :: extra);
             report_request args char_enc c (strip r_syn)]
    /\ (forall j m,
          extra !! j = Some m ->
          exists req r o,
            requests w' !! (n + length seeding_requests + j)%nat = Some req
            /\ service (n + length seeding_requests + j)%nat req = Choices r o
            /\ m = strip r)
    /\ service (n + length seeding_requests + length extra)%nat
         (synthesis_request args char_enc c problem additional (seed :: extra))
       = Choices r_syn o_syn
    /\ service (S (n + length seeding_requests + length extra))
         (report_request args char_enc c (strip r_syn))
       = Choices html o_html
    /\ files w' !! "conversation.txt"
       = Some (file_header problem additional seed
               ++ concat (imap agent_entry (seed :: extra)))
    /\ files w' !! "synthesis.txt"
       = Some (file_header problem additional seed
               ++ lit "Synthesis: " ++ strip r_syn ++ nl ++ nl)
    /\ files w' !! "report.html" = Some html.
Proof.
  intros service args w'.
  assert (Hok : snd (main service char_enc args 5 demo_inputs init_world)
                = Ok tt) by (vm_compute; reflexivity).
  unfold w'. clear w'.
  destruct (main service char_enc args 5 demo_inputs init_world)
    as [w' res] eqn:Hrun.
  cbn [fst snd] in *. subst res.
  exact (successful_run_anatomy service char_enc args 5 demo_inputs
           init_world w' Hrun).
Defined.

(** In the scenario run the report file holds the fifth answer of the
    script as it came, and the synthesis file the stripped fourth. *)
Example scenario_files :
  let w' :=
    fst (main (scripted demo_script) char_enc (args_with (lit "gpt-4") 100)
           5 demo_inputs init_world) in
  files w' !! "report.html" = Some (lit "<html></html>")
  /\ files w' !! "synthesis.txt"
     = Some (file_header (lit "reduce server latency") [] (lit "add a cache")
             ++ lit "Synthesis: final plan" ++ nl ++ nl).
Proof. vm_compute. repeat split. Qed.
